(** * Appointment capacity booking and reminder scheduling (dataikos-backend)

    A shallow embedding of the booking core of the backend:

    - [app/utils/supabase_client.py]: the [DatabaseManager] methods on the
      tables [time_slots] and [appointments];
    - [app/crud.py]: [CRUDHandler.create_appointment],
      [CRUDHandler.cancel_appointment];
    - [app/utils/scheduler.py]: [AppointmentScheduler.check_reminders] and
      [_send_reminder].

    The Supabase store and the e-mail service are external.  They are
    modelled by an explicit world: two tables keyed by the primary key
    [id], an oracle saying which of the coming [.execute()] calls raise,
    an oracle for the coming e-mail calls, a clock and the log. *)

From Stdlib Require Import ZArith Lia Ascii String.
From stdpp Require Import gmap strings list fin_maps sorting.

Local Open Scope Z_scope.

(** ** Configuration ([app/config.py], class [Settings]) *)

Record Settings := mkSettings {
  MAX_APPOINTMENTS_PER_SLOT : Z;
  APPOINTMENT_REMINDER_HOURS : Z;
  WORKING_HOURS_START : string;
  WORKING_HOURS_END : string;
  SCHEDULER_ENABLED : bool;
  SCHEDULER_CHECK_INTERVAL : Z
}.

(** The values [Settings] takes when the environment sets nothing. *)
Definition default_settings : Settings :=
  {| MAX_APPOINTMENTS_PER_SLOT := 5;
     APPOINTMENT_REMINDER_HOURS := 24;
     WORKING_HOURS_START := "09:00";
     WORKING_HOURS_END := "18:00";
     SCHEDULER_ENABLED := false;
     SCHEDULER_CHECK_INTERVAL := 60 |}.

(** ** Rows

    A row is a Python dict.  The columns the code reads with
    [.get(key, default)] are optional here ([None]: the key is missing);
    the others are read with [row[key]] or only passed along.  Timestamps
    are clock readings; a calendar date is carried as its [isoformat()]
    string, which is all the store sees of it. *)

(** The dict [slot_data] built by [generate_time_slots_for_date]. *)
Record TimeSlotData := mkTimeSlotData {
  date : string;
  start_time : string;
  end_time : string;
  max_capacity : option Z;
  current_bookings : option Z;
  slot_created_at : Z;
  slot_updated_at : Z
}.

(** A row of [time_slots]: the inserted dict and the key the store gave it. *)
Record TimeSlot := mkTimeSlot {
  slot_id : string;
  slot_data :> TimeSlotData
}.

(** [AppointmentCreate] of [app/models.py]. *)
Record AppointmentCreate := mkAppointmentCreate {
  order_id : option string;
  time_slot_id : string;
  client_email : string;
  client_name : string;
  client_phone : string;
  service : string;
  notes : option string
}.

(** [appointment_dict]: [model_dump()] updated with the three keys
    [created_at], [updated_at] and [status]. *)
Record AppointmentData := mkAppointmentData {
  appt_base :> AppointmentCreate;
  status : string;
  reminder_sent : option bool;
  appt_created_at : Z;
  appt_updated_at : Z
}.

(** A row of [appointments]. *)
Record Appointment := mkAppointment {
  appt_id : string;
  appt_data :> AppointmentData
}.

(** The [update_data] dicts passed to [update_appointment]: each key is
    either present with its new value or absent. *)
Record AppointmentPatch := mkAppointmentPatch {
  patch_status : option string;
  patch_reminder_sent : option bool;
  patch_updated_at : option Z
}.

(** A slot as [get_available_slots] returns it:
    [{**slot, 'available_spots': ..., 'is_available': ...}]. *)
Record SlotInfo := mkSlotInfo {
  info_slot :> TimeSlot;
  available_spots : Z;
  is_available : bool
}.

(** ** The world *)

Inductive Level := INFO | WARNING | ERROR.

(** What a call into [email_service] does: return [True], return [False]
    or raise. *)
Inductive MailOutcome := MailSent | MailNotSent | MailRaised.

Record World := mkWorld {
  time_slots : gmap string TimeSlot;
  appointments : gmap string Appointment;
  faults : list bool;
  mailer : list MailOutcome;
  clock : Z;
  log : list (Level * string)
}.

Definition set_time_slots (f : gmap string TimeSlot → gmap string TimeSlot)
    (w : World) : World :=
  mkWorld (f (time_slots w)) (appointments w) (faults w) (mailer w)
          (clock w) (log w).

Definition set_appointments
    (f : gmap string Appointment → gmap string Appointment)
    (w : World) : World :=
  mkWorld (time_slots w) (f (appointments w)) (faults w) (mailer w)
          (clock w) (log w).

(** ** A state monad over the world *)

Definition M (A : Type) : Type := World → A * World.

Definition ret {A} (a : A) : M A := λ w, (a, w).

Definition bind {A B} (c : M A) (k : A → M B) : M B :=
  λ w, let '(a, w1) := c w in k a w1.

Notation "x <- c ;; k" := (bind c (λ x, k))
  (at level 100, c at next level, right associativity, only parsing).

(** [result c w] is what [c] returns from [w], [after c w] the world it
    leaves. *)
Definition result {A} (c : M A) (w : World) : A := fst (c w).
Definition after {A} (c : M A) (w : World) : World := snd (c w).

(** [datetime.utcnow()]: read the clock, which then moves on. *)
Definition utcnow : M Z :=
  λ w, (clock w,
        mkWorld (time_slots w) (appointments w) (faults w) (mailer w)
                (clock w + 1) (log w)).

(** [logger.info / warning / error / exception]: the record is appended. *)
Definition logger (lvl : Level) (msg : string) : M unit :=
  λ w, (tt,
        mkWorld (time_slots w) (appointments w) (faults w) (mailer w)
                (clock w) (log w ++ [(lvl, msg)])).

(** [.execute()]: the request reaches the store, or raises.  The answer
    is [true] when it raises; an exhausted oracle never raises. *)
Definition execute : M bool :=
  λ w, match faults w with
       | [] => (false, w)
       | b :: fs =>
           (b, mkWorld (time_slots w) (appointments w) fs (mailer w)
                       (clock w) (log w))
       end.

(** A call into [email_service]; an exhausted oracle delivers. *)
Definition send_mail : M MailOutcome :=
  λ w, match mailer w with
       | [] => (MailSent, w)
       | o :: os =>
           (o, mkWorld (time_slots w) (appointments w) (faults w) os
                       (clock w) (log w))
       end.

(** [dict.get(key, default)] on an optional column. *)
Definition get_default {A} (field : option A) (d : A) : A :=
  match field with Some v => v | None => d end.

(** ** The store's answers to single requests

    Each is what one [table(...).<verb>(...).eq("id", key).execute()]
    does once the request has reached the store. *)

(** [table("time_slots").insert(data)]: the store picks an unused key;
    [res.data] is the one new row. *)
Definition insert_time_slot (data : TimeSlotData) : M TimeSlot :=
  λ w, let row := mkTimeSlot (fresh (dom (time_slots w))) data in
       (row, set_time_slots (insert (slot_id row) row) w).

(** [table("appointments").insert(data)] *)
Definition insert_appointment (data : AppointmentData) : M Appointment :=
  λ w, let row := mkAppointment (fresh (dom (appointments w))) data in
       (row, set_appointments (insert (appt_id row) row) w).

(** [.update({'current_bookings': n, 'updated_at': t}).eq("id", key)];
    the answer is [bool(res.data)]: was a row updated. *)
Definition with_bookings (n t : Z) (s : TimeSlot) : TimeSlot :=
  mkTimeSlot (slot_id s)
    (mkTimeSlotData (date s) (start_time s) (end_time s) (max_capacity s)
                    (Some n) (slot_created_at s) t).

Definition update_bookings (key : string) (n t : Z) : M bool :=
  λ w, match time_slots w !! key with
       | Some s => (true, set_time_slots (insert key (with_bookings n t s)) w)
       | None => (false, w)
       end.

(** A dict of new values laid over a row of [appointments]. *)
Definition apply_patch (p : AppointmentPatch) (a : Appointment) : Appointment :=
  mkAppointment (appt_id a)
    (mkAppointmentData (appt_base a)
       (get_default (patch_status p) (status a))
       (match patch_reminder_sent p with
        | Some b => Some b
        | None => reminder_sent a
        end)
       (appt_created_at a)
       (get_default (patch_updated_at p) (appt_updated_at a))).

(** [table("appointments").update(p).eq("id", key)]; [res.data[0]] when a
    row was updated. *)
Definition update_row (key : string) (p : AppointmentPatch)
    : M (option Appointment) :=
  λ w, match appointments w !! key with
       | Some a =>
           let a' := apply_patch p a in
           (Some a', set_appointments (insert key a') w)
       | None => (None, w)
       end.

(** [table("appointments").delete().eq("id", key)]; [bool(res.data)]. *)
Definition delete_row (key : string) : M bool :=
  λ w, match appointments w !! key with
       | Some _ => (true, set_appointments (delete key) w)
       | None => (false, w)
       end.

(** [.order("start_time")]: ascending on the text column. *)
Definition by_start_time (a b : TimeSlot) : Prop :=
  String.leb (start_time a) (start_time b) = true.

Global Instance by_start_time_dec a b : Decision (by_start_time a b).
Proof. unfold by_start_time. apply _. Defined.

(** [select("*").eq("date", d).order("start_time")] *)
Definition select_by_date (d : string) (tbl : gmap string TimeSlot)
    : list TimeSlot :=
  merge_sort by_start_time
    (filter (λ s : TimeSlot, date s = d) (snd <$> map_to_list tbl)).

(** ** Wall-clock strings *)

(** [str.split(':')] *)
Fixpoint split_colon (s : string) : list string :=
  match s with
  | EmptyString => [EmptyString]
  | String c rest =>
      if Ascii.eqb c ":"%char then EmptyString :: split_colon rest
      else match split_colon rest with
           | p :: ps => String c p :: ps
           | [] => [String c EmptyString]
           end
  end.

Definition digit_value (c : Ascii.ascii) : option Z :=
  let n := Z.of_nat (Ascii.nat_of_ascii c) in
  if (48 <=? n) && (n <=? 57) then Some (n - 48) else None.

Fixpoint int_digits (acc : Z) (s : string) : option Z :=
  match s with
  | EmptyString => Some acc
  | String c rest =>
      match digit_value c with
      | Some d => int_digits (10 * acc + d) rest
      | None => None
      end
  end.

(** [int(s)] on the plain decimal numerals, which is what the fields of
    an HH:MM setting are: for these it gives the number Python gives.
    It gives [None] on every other string; Python raises [ValueError] on
    those, except for the other spellings of a numeral it reads (a sign,
    blanks around the numeral, underscores between digits), which this
    model does not cover: the statements below name the malformation
    they are about ([unreadable]) and do not take [None] for a raise. *)
Definition int_of_str (s : string) : option Z :=
  match s with
  | EmptyString => None
  | _ => int_digits 0 s
  end.

(** [h, m = map(int, s.split(':'))]: exactly two fields, both numerals. *)
Definition parse_hours (s : string) : option (Z * Z) :=
  match split_colon s with
  | [h; m] =>
      match int_of_str h, int_of_str m with
      | Some hh, Some mm => Some (hh, mm)
      | _, _ => None
      end
  | _ => None
  end.

(** [datetime.combine(date_obj, time(h, m))], as minutes after the
    midnight that starts [date_obj]; [time] raises outside 0..23, 0..59. *)
Definition combine (h m : Z) : option Z :=
  if (0 <=? h) && (h <=? 23) && (0 <=? m) && (m <=? 59)
  then Some (60 * h + m) else None.

Definition digit_char (d : Z) : Ascii.ascii :=
  Ascii.ascii_of_nat (48 + Z.to_nat d).

Definition two_digits (n : Z) : string :=
  String (digit_char (n / 10)) (String (digit_char (n mod 10)) EmptyString).

(** [t.strftime('%H:%M')] for the instant [t] minutes after that midnight. *)
Definition strftime_HM (t : Z) : string :=
  two_digits ((t / 60) mod 24) +:+ ":" +:+ two_digits (t mod 60).

(** The "Parse working hours" lines: the two settings as the instants
    [current_time] and [end_time] the loop runs between; [None] when a
    setting is not two plain numerals in the range of [time(h, m)]. *)
Definition working_hours (settings : Settings) : option (Z * Z) :=
  match parse_hours (WORKING_HOURS_START settings),
        parse_hours (WORKING_HOURS_END settings) with
  | Some (start_hour, start_minute), Some (end_hour, end_minute) =>
      match combine start_hour start_minute, combine end_hour end_minute with
      | Some current_time, Some end_time => Some (current_time, end_time)
      | _, _ => None
      end
  | _, _ => None
  end.

(** ** [DatabaseManager] ([app/utils/supabase_client.py]) *)

Module db_manager.

Definition create_time_slot (data : TimeSlotData) : M (option TimeSlot) :=
  raised <- execute ;;
  if (raised : bool) then
    _ <- logger ERROR "create_time_slot failed" ;; ret None
  else
    row <- insert_time_slot data ;; ret (Some row).

Definition get_time_slot (slot_id : string) : M (option TimeSlot) :=
  raised <- execute ;;
  if (raised : bool) then
    _ <- logger ERROR "get_time_slot failed" ;; ret None
  else
    λ w, (time_slots w !! slot_id, w).

Definition get_time_slots_by_date (date_obj : string) : M (list TimeSlot) :=
  raised <- execute ;;
  if (raised : bool) then
    _ <- logger ERROR "get_time_slots_by_date failed" ;; ret []
  else
    λ w, (select_by_date date_obj (time_slots w), w).

Definition slot_info (settings : Settings) (slot : TimeSlot) : SlotInfo :=
  let max_capacity :=
    get_default (max_capacity slot) (MAX_APPOINTMENTS_PER_SLOT settings) in
  let current_bookings := get_default (current_bookings slot) 0 in
  let available_spots := max_capacity - current_bookings in
  {| info_slot := slot;
     available_spots := available_spots;
     is_available := bool_decide (available_spots > 0) |}.

Definition get_available_slots (settings : Settings) (date_obj : string)
    : M (list SlotInfo) :=
  slots <- get_time_slots_by_date date_obj ;;
  ret (slot_info settings <$> slots).

Definition increment_time_slot_bookings (slot_id : string) : M bool :=
  slot <- get_time_slot slot_id ;;
  match slot with
  | None => ret false
  | Some slot =>
      let new_count := get_default (current_bookings slot) 0 + 1 in
      now <- utcnow ;;
      raised <- execute ;;
      if (raised : bool) then
        _ <- logger ERROR "increment_time_slot_bookings failed" ;; ret false
      else
        update_bookings slot_id new_count now
  end.

Definition decrement_time_slot_bookings (slot_id : string) : M bool :=
  slot <- get_time_slot slot_id ;;
  match slot with
  | None => ret false
  | Some slot =>
      let new_count := Z.max 0 (get_default (current_bookings slot) 0 - 1) in
      now <- utcnow ;;
      raised <- execute ;;
      if (raised : bool) then
        _ <- logger ERROR "decrement_time_slot_bookings failed" ;; ret false
      else
        update_bookings slot_id new_count now
  end.

(** The body of [if slot_end <= end_time:]: build [slot_data], create the
    slot, append it when the store returned it. *)
Definition emit_slot (settings : Settings) (date_obj : string)
    (current_time slot_end : Z) (slots : list TimeSlot)
    : M (list TimeSlot) :=
  created_at <- utcnow ;;
  updated_at <- utcnow ;;
  created_slot <- create_time_slot
    {| date := date_obj;
       start_time := strftime_HM current_time;
       end_time := strftime_HM slot_end;
       max_capacity := Some (MAX_APPOINTMENTS_PER_SLOT settings);
       current_bookings := Some 0;
       slot_created_at := created_at;
       slot_updated_at := updated_at |} ;;
  ret (match created_slot with
       | Some s => slots ++ [s]
       | None => slots
       end).

(** The [while current_time < end_time] loop.  [None]: the loop has not
    ended within [fuel] rounds.  Instants are minutes after the midnight
    of [date_obj], counted in [Z]: the [OverflowError] of
    [current_time + timedelta(...)] past [datetime.max], which a step
    that passes midnight reaches on 9999-12-31, is not modelled, and the
    statements on what generation returns leave that date out. *)
Fixpoint generate_loop (settings : Settings) (fuel : nat) (date_obj : string)
    (duration_minutes end_time current_time : Z) (slots : list TimeSlot)
    : M (option (list TimeSlot)) :=
  if bool_decide (current_time < end_time) then
    match fuel with
    | O => ret None
    | S fuel' =>
        let slot_end := current_time + duration_minutes in
        slots' <-
          (if bool_decide (slot_end ≤ end_time)
           then emit_slot settings date_obj current_time slot_end slots
           else ret slots) ;;
        generate_loop settings fuel' date_obj duration_minutes end_time
                      slot_end slots'
    end
  else ret (Some slots).

Definition generate_time_slots_for_date (settings : Settings) (fuel : nat)
    (date_obj : string) (duration_minutes : Z)
    : M (option (list TimeSlot)) :=
  existing_slots <- get_time_slots_by_date date_obj ;;
  match existing_slots with
  | _ :: _ =>
      _ <- logger INFO "Time slots already exist" ;; ret (Some existing_slots)
  | [] =>
      match working_hours settings with
      | Some (current_time, end_time) =>
          finished <- generate_loop settings fuel date_obj duration_minutes
                                    end_time current_time [] ;;
          match finished with
          | Some slots =>
              _ <- logger INFO "Generated time slots" ;; ret (Some slots)
          | None => ret None
          end
      | None =>
          _ <- logger ERROR "generate_time_slots_for_date failed" ;;
          ret (Some [])
      end
  end.

Definition create_appointment (data : AppointmentData)
    : M (option Appointment) :=
  raised <- execute ;;
  if (raised : bool) then
    _ <- logger ERROR "create_appointment failed" ;; ret None
  else
    row <- insert_appointment data ;; ret (Some row).

Definition get_appointment (appointment_id : string)
    : M (option Appointment) :=
  raised <- execute ;;
  if (raised : bool) then
    _ <- logger ERROR "get_appointment failed" ;; ret None
  else
    λ w, (appointments w !! appointment_id, w).

Definition update_appointment (appointment_id : string)
    (update_data : AppointmentPatch) : M (option Appointment) :=
  now <- utcnow ;;
  let update_data :=
    {| patch_status := patch_status update_data;
       patch_reminder_sent := patch_reminder_sent update_data;
       patch_updated_at := Some now |} in
  raised <- execute ;;
  if (raised : bool) then
    _ <- logger ERROR "update_appointment failed" ;; ret None
  else
    update_row appointment_id update_data.

Definition delete_appointment (appointment_id : string) : M bool :=
  raised <- execute ;;
  if (raised : bool) then
    _ <- logger ERROR "delete_appointment failed" ;; ret false
  else
    delete_row appointment_id.

End db_manager.

(** ** Calendar dates ([datetime.date]) *)

Record Date := mkDate { year : Z; month : Z; day : Z }.

Definition is_leap (y : Z) : bool :=
  (y mod 4 =? 0) && (negb (y mod 100 =? 0) || (y mod 400 =? 0)).

Definition days_in_month (y m : Z) : Z :=
  if m =? 2 then (if is_leap y then 29 else 28)
  else if (m =? 4) || (m =? 6) || (m =? 9) || (m =? 11) then 30
  else 31.

(** The values a [date] object can hold ([date.min] to [date.max]). *)
Definition valid_date (d : Date) : Prop :=
  1 ≤ year d ≤ 9999 ∧ 1 ≤ month d ≤ 12
  ∧ 1 ≤ day d ≤ days_in_month (year d) (month d).

(** [d + timedelta(days=1)]; [None] is the [OverflowError] past
    [date.max]. *)
Definition tomorrow (d : Date) : option Date :=
  if day d <? days_in_month (year d) (month d) then
    Some (mkDate (year d) (month d) (day d + 1))
  else if month d <? 12 then Some (mkDate (year d) (month d + 1) 1)
  else if year d <? 9999 then Some (mkDate (year d + 1) 1 1)
  else None.

(** [a <= b] on dates. *)
Definition date_le (a b : Date) : bool :=
  (year a <? year b)
  || ((year a =? year b)
      && ((month a <? month b)
          || ((month a =? month b) && (day a <=? day b)))).

Definition four_digits (n : Z) : string :=
  two_digits (n / 100) +:+ two_digits (n mod 100).

(** [d.isoformat()]: YYYY-MM-DD. *)
Definition isoformat (d : Date) : string :=
  four_digits (year d) +:+ "-" +:+ two_digits (month d) +:+ "-"
  +:+ two_digits (day d).

(** ** [CRUDHandler] ([app/crud.py]) *)

Module crud_handler.

Definition create_appointment (appointment_data : AppointmentCreate)
    : M (option Appointment) :=
  time_slot <- db_manager.get_time_slot (time_slot_id appointment_data) ;;
  match time_slot with
  | None => _ <- logger WARNING "Time slot not found" ;; ret None
  | Some time_slot =>
      let max_capacity := get_default (max_capacity time_slot) 5 in
      let current_bookings := get_default (current_bookings time_slot) 0 in
      if bool_decide (current_bookings >= max_capacity) then
        _ <- logger WARNING "Time slot fully booked" ;; ret None
      else
        now <- utcnow ;;
        let appointment_dict :=
          {| appt_base := appointment_data;
             status := "confirmed";
             reminder_sent := None;
             appt_created_at := now;
             appt_updated_at := now |} in
        appointment <- db_manager.create_appointment appointment_dict ;;
        match appointment with
        | None => ret None
        | Some appointment =>
            incremented <- db_manager.increment_time_slot_bookings
                             (time_slot_id appointment_data) ;;
            if negb incremented then
              _ <- db_manager.delete_appointment (appt_id appointment) ;;
              ret None
            else
              sent <- send_mail ;;
              _ <- match sent with
                   | MailRaised =>
                       logger WARNING "Appointment created but email failed"
                   | MailSent | MailNotSent => ret tt
                   end ;;
              ret (Some appointment)
        end
  end.

Definition cancel_appointment (appointment_id : string) : M bool :=
  appointment <- db_manager.get_appointment appointment_id ;;
  match appointment with
  | None => ret false
  | Some appointment =>
      now <- utcnow ;;
      updated <- db_manager.update_appointment appointment_id
                   {| patch_status := Some "cancelled";
                      patch_reminder_sent := None;
                      patch_updated_at := Some now |} ;;
      match updated with
      | None => ret false
      | Some _ =>
          db_manager.decrement_time_slot_bookings (time_slot_id appointment)
      end
  end.

Definition get_available_slots (settings : Settings) (date_obj : string)
    : M (list SlotInfo) :=
  db_manager.get_available_slots settings date_obj.

(** The [while current_date <= end_date] loop of
    [generate_slots_for_date_range].  [None]: the loop, or the loop of a
    day, has not ended within its fuel ([days] rounds here, [fuel] rounds
    a day).  Stepping past [date.max] raises; the [except] clause logs it
    and returns the empty list. *)
Fixpoint date_range_loop (settings : Settings) (days fuel : nat)
    (service_duration : Z) (end_date current_date : Date)
    (slots : list TimeSlot) : M (option (list TimeSlot)) :=
  if date_le current_date end_date then
    match days with
    | O => ret None
    | S days' =>
        daily_slots <- db_manager.generate_time_slots_for_date
                         settings fuel (isoformat current_date)
                         service_duration ;;
        match daily_slots with
        | None => ret None
        | Some daily_slots =>
            match tomorrow current_date with
            | Some next_date =>
                date_range_loop settings days' fuel service_duration
                                end_date next_date (slots ++ daily_slots)
            | None =>
                _ <- logger ERROR "Error generating time slots" ;;
                ret (Some [])
            end
        end
    end
  else ret (Some slots).

Definition generate_slots_for_date_range (settings : Settings)
    (days fuel : nat) (start_date end_date : Date) (service_duration : Z)
    : M (option (list TimeSlot)) :=
  date_range_loop settings days fuel service_duration end_date start_date [].

End crud_handler.

(** ** [AppointmentScheduler] ([app/utils/scheduler.py]) *)

Module scheduler.

(** [for x in xs: body(x)] *)
Fixpoint for_each {A} (xs : list A) (body : A → M unit) : M unit :=
  match xs with
  | [] => ret tt
  | x :: rest => _ <- body x ;; for_each rest body
  end.

(** The clock counts seconds: [timedelta(hours=n)]. *)
Definition hours (n : Z) : Z := 3600 * n.

(** The method body builds an empty list and returns it. *)
Definition _get_upcoming_appointments : M (list Appointment) := ret [].

(** The method body is [return None]. *)
Definition _parse_appointment_time (appointment : Appointment) : option Z :=
  None.

(** [success = email_service.send_appointment_reminder(...)], then the
    update on success.  [db_manager.update_appointment] is a plain
    function: it runs, and [await] applied to what it returns (a dict or
    [None]) raises [TypeError], which the enclosing [except] logs. *)
Definition _send_reminder (appointment : Appointment) : M unit :=
  success <- send_mail ;;
  match success with
  | MailRaised => logger ERROR "Error sending reminder"
  | MailNotSent => logger WARNING "Failed to send reminder"
  | MailSent =>
      _ <- db_manager.update_appointment (appt_id appointment)
             {| patch_status := None;
                patch_reminder_sent := Some true;
                patch_updated_at := None |} ;;
      logger ERROR "Error sending reminder"
  end.

Definition check_reminders (settings : Settings) : M unit :=
  now <- utcnow ;;
  _ <- logger INFO "Checking reminders" ;;
  appointments <- _get_upcoming_appointments ;;
  _ <- for_each appointments (λ appointment,
         if negb (get_default (reminder_sent appointment) false) then
           match _parse_appointment_time appointment with
           | Some appointment_time =>
               let time_diff := appointment_time - now in
               if bool_decide (hours 23 < time_diff)
                  && bool_decide (time_diff < hours 25)
               then _send_reminder appointment
               else ret tt
           | None => ret tt
           end
         else ret tt) ;;
  logger INFO "Reminder check completed".

End scheduler.

(** ** The routes ([app/routes/appointments.py], [app/routes/orders.py])

    A route returns a value or raises.  [HTTPException status detail]
    is [HTTPException(status_code=status, detail=detail)], and
    [HTTPExceptionStr status detail e] is the same with the caught
    exception interpolated: [detail=f"{detail}{str(e)}"].  The bodies are
    those an authenticated administrator reaches (the [Depends] of each
    route has let the request through). *)

Inductive Exn :=
  | HTTPException (status_code : Z) (detail : string)
  | HTTPExceptionStr (status_code : Z) (detail : string) (e : Exn)
  | TypeError
  | ValueError.

(** [try: body  except Exception as e: handler(e)], once [body] has run. *)
Definition try_except {A} (body : Exn + A) (handler : Exn → Exn + A)
    : Exn + A :=
  match body with
  | inl e => handler e
  | inr a => inr a
  end.

(** The status the client is answered with: 200 for a value, the status
    of an [HTTPException], and 500 from the global exception handler of
    [app/main.py] for anything else. *)
Definition answered {A} (r : Exn + A) : Z :=
  match r with
  | inr _ => 200
  | inl (HTTPException status_code _) => status_code
  | inl (HTTPExceptionStr status_code _ _) => status_code
  | inl _ => 500
  end.

(** [AvailableSlotResponse] of [app/models.py]: all six fields are
    required. *)
Record AvailableSlotResponse := mkAvailableSlotResponse {
  response_id : string;
  response_date : string;
  response_start_time : string;
  response_end_time : string;
  response_available_spots : Z;
  response_is_available : bool
}.

(** [AvailableSlotResponse(...)]: the model validates its arguments and
    raises pydantic's [ValidationError], a [ValueError], when [id] is not
    given. *)
Definition AvailableSlotResponse_new (id : option string)
    (date start_time end_time : string) (available_spots : Z)
    (is_available : bool) : Exn + AvailableSlotResponse :=
  match id with
  | Some id =>
      inr (mkAvailableSlotResponse id date start_time end_time
                                   available_spots is_available)
  | None => inl ValueError
  end.

Module appointments_router.

(** The [for slot in slots:] loop of [get_available_slots].  The call
    passes [date], [start_time], [end_time], [available_spots] and
    [is_available], and no [id].  ([datetime.fromisoformat(...).date()]
    hands the stored date on, or raises [ValueError] itself.) *)
Fixpoint format_slots (slots : list SlotInfo)
    : Exn + list AvailableSlotResponse :=
  match slots with
  | [] => inr []
  | slot :: rest =>
      match AvailableSlotResponse_new None (date slot) (start_time slot)
              (end_time slot) (available_spots slot) (is_available slot) with
      | inl e => inl e
      | inr response =>
          match format_slots rest with
          | inl e => inl e
          | inr responses => inr (response :: responses)
          end
      end
  end.

Definition get_available_slots (settings : Settings) (target_date : string)
    : M (Exn + list AvailableSlotResponse) :=
  slots <- crud_handler.get_available_slots settings target_date ;;
  ret (try_except (format_slots slots)
         (λ e, inl (HTTPExceptionStr 500 "Error getting available slots: " e))).

Definition create_appointment (appointment : AppointmentCreate)
    : M (Exn + Appointment) :=
  created_appointment <- crud_handler.create_appointment appointment ;;
  ret (try_except
         (match created_appointment with
          | None =>
              inl (HTTPException 400
                     "Failed to create appointment. Time slot may be full.")
          | Some created_appointment => inr created_appointment
          end)
         (λ e, inl (HTTPExceptionStr 500 "Error creating appointment: " e))).

(** [appointment = await db_manager.get_appointment(appointment_id)]:
    [get_appointment] is a plain function, so it runs and [await] raises
    [TypeError] on what it returned; the rest of the body is never
    reached. *)
Definition get_appointment (appointment_id : string)
    : M (Exn + Appointment) :=
  _ <- db_manager.get_appointment appointment_id ;;
  ret (try_except (inl TypeError)
         (λ e, inl (HTTPExceptionStr 500 "Error getting appointment: " e))).

Definition cancel_appointment (appointment_id : string)
    : M (Exn + string) :=
  success <- crud_handler.cancel_appointment appointment_id ;;
  ret (try_except
         (if negb success then
            inl (HTTPException 404
                   "Appointment not found or already cancelled")
          else inr "Appointment cancelled successfully"%string)
         (λ e, inl (HTTPExceptionStr 500 "Error cancelling appointment: " e))).

(** As in [get_appointment], the first statement is
    [await db_manager.get_appointment(appointment_id)]. *)
Definition send_appointment_reminder (appointment_id : string)
    : M (Exn + bool) :=
  _ <- db_manager.get_appointment appointment_id ;;
  ret (try_except (inl TypeError)
         (λ e, inl (HTTPExceptionStr 500 "Error sending reminder: " e))).

End appointments_router.

Module orders_router.

(** The public listing: the comprehension keeps the slots with
    [is_available] and copies six keys. *)
Definition get_available_slots (settings : Settings) (target_date : string)
    : M (list AvailableSlotResponse) :=
  slots <- db_manager.get_available_slots settings target_date ;;
  ret ((λ s : SlotInfo,
          mkAvailableSlotResponse (slot_id s) (date s) (start_time s)
            (end_time s) (available_spots s) (is_available s))
         <$> filter (λ s : SlotInfo, is_available s = true) slots).

End orders_router.

(** ** Vocabulary of the statements *)

(** No request to the store is going to raise. *)
Definition healthy (w : World) : Prop := faults w = [].

(** The counter as the code reads it: [slot.get('current_bookings', 0)]. *)
Definition bookings (s : TimeSlot) : Z := get_default (current_bookings s) 0.

(** The slot stored under [key], if any, and its counter. *)
Definition slot_at (w : World) (key : string) : option TimeSlot :=
  time_slots w !! key.

Definition bookings_at (w : World) (key : string) : option Z :=
  bookings <$> slot_at w key.

(** The stored [max_capacity] of the slot under [key]. *)
Definition capacity_at (w : World) (key : string) : option (option Z) :=
  (λ s : TimeSlot, max_capacity s) <$> slot_at w key.

(** [0 <= current_bookings <= max_capacity] on one slot; the upper bound
    speaks of a stored [max_capacity]. *)
Definition slot_ok (s : TimeSlot) : Prop :=
  0 ≤ bookings s ∧ ∀ m, max_capacity s = Some m → bookings s ≤ m.

Definition capacity_inv (w : World) : Prop :=
  ∀ key s, time_slots w !! key = Some s → slot_ok s.


(** A slot row with the given counter and capacity, for the examples. *)
Definition slot_row (key : string) (cap booked : Z) : TimeSlot :=
  mkTimeSlot key
    (mkTimeSlotData "2025-01-06" "09:00" "10:00" (Some cap) (Some booked) 0 0).

(** A store holding the single slot ["s1"]. *)
Definition one_slot (cap booked : Z) (fs : list bool) : World :=
  mkWorld {[ "s1"%string := slot_row "s1" cap booked ]} ∅ fs [] 100 [].

Definition request (key : string) : AppointmentCreate :=
  mkAppointmentCreate None key "ada@example.org" "Ada" "+237600000000"
                      "portrait" None.

(** An appointment row on slot ["s1"] with the given status. *)
Definition appointment_row (key st : string) : Appointment :=
  mkAppointment key (mkAppointmentData (request "s1") st None 0 0).

(** Slot ["s1"] with two places taken and the appointment ["a1"] on it. *)
Definition booked_world (st : string) : World :=
  mkWorld {[ "s1"%string := slot_row "s1" 5 2 ]}
          {[ "a1"%string := appointment_row "a1" st ]} [] [] 100 [].

(** The status and the reminder flag (as the scheduler reads it:
    [appointment.get('reminder_sent', False)]) of the appointment stored
    under [key]. *)
Definition status_at (w : World) (key : string) : option string :=
  (λ a : Appointment, status a) <$> appointments w !! key.

Definition reminder_at (w : World) (key : string) : option bool :=
  (λ a : Appointment, get_default (reminder_sent a) false)
    <$> appointments w !! key.

(** ** Slot generation: what the loop emits *)

(** The instants (minutes after midnight) at which the loop emits a slot:
    the loop of [generate_time_slots_for_date] without the store. *)
Fixpoint slot_starts (fuel : nat) (duration_minutes end_time current_time : Z)
    : option (list Z) :=
  if bool_decide (current_time < end_time) then
    match fuel with
    | O => None
    | S fuel' =>
        let slot_end := current_time + duration_minutes in
        match slot_starts fuel' duration_minutes end_time slot_end with
        | Some rest =>
            Some (if bool_decide (slot_end ≤ end_time)
                  then current_time :: rest else rest)
        | None => None
        end
    end
  else Some [].

(** [s] is a slot of [date_obj] that starts [k] steps of
    [duration_minutes] after [from], lasts exactly one step, ends no later
    than [until], is empty and has the configured capacity. *)
Definition emitted_from (settings : Settings) (date_obj : string)
    (duration_minutes until from : Z) (s : TimeSlot) : Prop :=
  ∃ k : nat,
    let t := from + Z.of_nat k * duration_minutes in
    date s = date_obj
    ∧ start_time s = strftime_HM t
    ∧ end_time s = strftime_HM (t + duration_minutes)
    ∧ t < until
    ∧ t + duration_minutes ≤ until
    ∧ current_bookings s = Some 0
    ∧ max_capacity s = Some (MAX_APPOINTMENTS_PER_SLOT settings).

Definition emitted (settings : Settings) (date_obj : string)
    (duration_minutes : Z) (s : TimeSlot) : Prop :=
  ∃ from until,
    working_hours settings = Some (from, until)
    ∧ emitted_from settings date_obj duration_minutes until from s.

(** [tbl'] is [tbl] with the rows [new] added under fresh, distinct keys. *)
Definition extends (tbl : gmap string TimeSlot) (new : list TimeSlot)
    (tbl' : gmap string TimeSlot) : Prop :=
  (∀ key s, tbl !! key = Some s → tbl' !! key = Some s)
  ∧ (∀ s, s ∈ new → tbl' !! slot_id s = Some s ∧ tbl !! slot_id s = None)
  ∧ (∀ key s, tbl' !! key = Some s →
       tbl !! key = Some s ∨ (s ∈ new ∧ key = slot_id s))
  ∧ NoDup new.

(** ** Several booking attempts *)

(** The attempts run one after another, each to its end. *)
Fixpoint book_all (attempts : list AppointmentCreate)
    : M (list (option Appointment)) :=
  match attempts with
  | [] => ret []
  | appointment_data :: rest =>
      r <- crud_handler.create_appointment appointment_data ;;
      rs <- book_all rest ;;
      ret (r :: rs)
  end.

Definition booked (r : option Appointment) : bool :=
  match r with Some _ => true | None => false end.

Definition successes (rs : list (option Appointment)) : nat :=
  length (filter (λ r, booked r = true) rs).

Definition refusals (rs : list (option Appointment)) : nat :=
  length (filter (λ r, booked r = false) rs).

(** The same attempts with their store requests interleaved.  A caller
    is at a stage of [create_appointment]; one step of a caller is the
    code of [create_appointment] (and of [increment_time_slot_bookings]
    inside it) up to and including its next request to the store. *)
Module interleaving.

Inductive Stage :=
  | Start (appointment_data : AppointmentCreate)
  | Checked (appointment_data : AppointmentCreate)
  | Created (appointment_data : AppointmentCreate) (appointment : Appointment)
  | Writing (appointment_data : AppointmentCreate) (appointment : Appointment)
            (new_count : Z)
  | Compensating (appointment : Appointment)
  | Notifying (appointment : Appointment)
  | Finished (r : option Appointment).

Definition step (stage : Stage) : M Stage :=
  match stage with
  | Start appointment_data =>
      time_slot <- db_manager.get_time_slot (time_slot_id appointment_data) ;;
      match time_slot with
      | None => _ <- logger WARNING "Time slot not found" ;; ret (Finished None)
      | Some time_slot =>
          let max_capacity := get_default (max_capacity time_slot) 5 in
          let current_bookings :=
            get_default (current_bookings time_slot) 0 in
          if bool_decide (current_bookings >= max_capacity) then
            _ <- logger WARNING "Time slot fully booked" ;; ret (Finished None)
          else ret (Checked appointment_data)
      end
  | Checked appointment_data =>
      now <- utcnow ;;
      appointment <- db_manager.create_appointment
        {| appt_base := appointment_data;
           status := "confirmed";
           reminder_sent := None;
           appt_created_at := now;
           appt_updated_at := now |} ;;
      match appointment with
      | None => ret (Finished None)
      | Some appointment => ret (Created appointment_data appointment)
      end
  | Created appointment_data appointment =>
      slot <- db_manager.get_time_slot (time_slot_id appointment_data) ;;
      match slot with
      | None => ret (Compensating appointment)
      | Some slot =>
          ret (Writing appointment_data appointment
                 (get_default (current_bookings slot) 0 + 1))
      end
  | Writing appointment_data appointment new_count =>
      now <- utcnow ;;
      raised <- execute ;;
      if (raised : bool) then
        _ <- logger ERROR "increment_time_slot_bookings failed" ;;
        ret (Compensating appointment)
      else
        updated <- update_bookings (time_slot_id appointment_data)
                                   new_count now ;;
        ret (if (updated : bool) then Notifying appointment
             else Compensating appointment)
  | Compensating appointment =>
      _ <- db_manager.delete_appointment (appt_id appointment) ;;
      ret (Finished None)
  | Notifying appointment =>
      sent <- send_mail ;;
      _ <- match sent with
           | MailRaised =>
               logger WARNING "Appointment created but email failed"
           | MailSent | MailNotSent => ret tt
           end ;;
      ret (Finished (Some appointment))
  | Finished r => ret (Finished r)
  end.

(** One caller, left alone for [n] steps. *)
Fixpoint run_alone (n : nat) (stage : Stage) : M Stage :=
  match n with
  | O => ret stage
  | S n' => stage' <- step stage ;; run_alone n' stage'
  end.

(** Caller number [i] takes its next step. *)
Definition step_caller (i : nat) (callers : list Stage) : M (list Stage) :=
  match callers !! i with
  | Some stage => stage' <- step stage ;; ret (<[i := stage']> callers)
  | None => ret callers
  end.

(** The callers step in the order the schedule names them. *)
Fixpoint run_schedule (schedule : list nat) (callers : list Stage)
    : M (list Stage) :=
  match schedule with
  | [] => ret callers
  | i :: rest =>
      callers' <- step_caller i callers ;; run_schedule rest callers'
  end.

Definition outcome (stage : Stage) : option (option Appointment) :=
  match stage with
  | Finished r => Some r
  | _ => None
  end.

End interleaving.

(** What a call can have done to [time_slots]: nothing, or the counter
    of the slot under [key] replaced by [f] of the old one. *)
Definition counter_moved (f : Z → Z) (key : string) (w w' : World) : Prop :=
  ∃ s t, time_slots w !! key = Some s
         ∧ time_slots w' = <[key := with_bookings (f (bookings s)) t s]>
                             (time_slots w).

(** A measure of dates that grows with the calendar (it counts every
    month as 31 days): used to bound the rounds of the date loop. *)
Definition rank (d : Date) : Z := (year d * 12 + month d) * 31 + day d.

(** [date.max], the last day of the calendar. *)
Definition date_max : Date := mkDate 9999 12 31.

(** A working-hours setting on which the "Parse working hours" lines
    raise for certain: it does not split into two fields at the colon
    (the unpacking into hour and minute raises, if [int] has not
    already), or its two fields are plain numerals outside the range of
    [time(h, m)]. *)
Definition unreadable (setting : string) : Prop :=
  length (split_colon setting) ≠ 2%nat
  ∨ ∃ h m, parse_hours setting = Some (h, m) ∧ combine h m = None.

(** * Proofs *)

Ltac open_world w :=
  destruct w as [tbl apps fs ms now lg];
  unfold healthy, capacity_at, bookings_at, slot_at in *; simpl in *; subst.

Ltac run :=
  cbv [db_manager.get_time_slot db_manager.get_time_slots_by_date
       db_manager.get_available_slots
       db_manager.increment_time_slot_bookings
       db_manager.decrement_time_slot_bookings
       db_manager.create_time_slot db_manager.create_appointment
       db_manager.get_appointment db_manager.update_appointment
       db_manager.delete_appointment
       update_bookings update_row delete_row insert_time_slot
       insert_appointment send_mail
       bind ret execute utcnow logger result after
       set_time_slots set_appointments];
  simpl.

(** ** The two counter updates *)

(** C1, as the specification words it, fails: on a slot that is already
    full (5 of 5) the increment answers [True] and stores 6. *)
Lemma increment_on_full_slot :
  bookings_at (one_slot 5 5 []) "s1" = Some 5
  ∧ capacity_at (one_slot 5 5 []) "s1" = Some (Some 5)
  ∧ result (db_manager.increment_time_slot_bookings "s1") (one_slot 5 5 [])
    = true
  ∧ bookings_at
      (after (db_manager.increment_time_slot_bookings "s1") (one_slot 5 5 []))
      "s1" = Some 6.
Proof. by vm_compute. Qed.

(** C1, amended: on a store that answers, for a slot that is present,
    [increment_time_slot_bookings] returns [True] and raises that slot's
    [current_bookings] by exactly one, whatever [max_capacity] is; the
    capacity and the other slots are left as they were. *)
Theorem increment_adds_one_whatever_the_capacity key s w :
  healthy w →
  slot_at w key = Some s →
  result (db_manager.increment_time_slot_bookings key) w = true
  ∧ bookings_at (after (db_manager.increment_time_slot_bookings key) w) key
    = Some (bookings s + 1)
  ∧ capacity_at (after (db_manager.increment_time_slot_bookings key) w) key
    = Some (max_capacity s)
  ∧ ∀ other, other ≠ key →
      slot_at (after (db_manager.increment_time_slot_bookings key) w) other
      = slot_at w other.
Proof.
  intros Hw Hs. open_world w. run. rewrite Hs. simpl. rewrite Hs. simpl.
  rewrite lookup_insert_eq. repeat split; try done.
  intros other Hne. by rewrite lookup_insert_ne.
Qed.

Lemma increment_adds_one_witness :
  result (db_manager.increment_time_slot_bookings "s1") (one_slot 3 3 [])
  = true
  ∧ bookings_at
      (after (db_manager.increment_time_slot_bookings "s1") (one_slot 3 3 []))
      "s1" = Some 4.
Proof.
  destruct (increment_adds_one_whatever_the_capacity
              "s1" (slot_row "s1" 3 3) (one_slot 3 3 []))
    as (Hr & Hb & _); [reflexivity | reflexivity |].
  split; [exact Hr | exact Hb].
Defined.

(** C6: [decrement_time_slot_bookings] never stores a negative counter.
    Whatever the store does, the slot afterwards is the slot as it was or
    carries [max(0, current_bookings - 1)]; on a store that answers the
    call returns [True], a counter at 0 stays at 0 and a positive counter
    goes down by exactly one. *)
Theorem decrement_floors_at_zero key s w :
  slot_at w key = Some s →
  (∃ s', slot_at (after (db_manager.decrement_time_slot_bookings key) w) key
         = Some s'
         ∧ (s' = s ∨ (current_bookings s' = Some (Z.max 0 (bookings s - 1))
                      ∧ 0 ≤ bookings s')))
  ∧ (healthy w →
     result (db_manager.decrement_time_slot_bookings key) w = true
     ∧ ∃ n, bookings_at
              (after (db_manager.decrement_time_slot_bookings key) w) key
            = Some n
            ∧ 0 ≤ n
            ∧ (bookings s = 0 → n = 0)
            ∧ (0 < bookings s → n = bookings s - 1)).
Proof.
  intros Hs. open_world w. split.
  - run.
    destruct fs as [|[] [|[] fs]]; simpl; rewrite ?Hs; simpl; rewrite ?Hs;
      simpl; rewrite ?lookup_insert_eq; (eexists; split; [done|]);
      first [ by left | right; unfold bookings; simpl; split; [done|lia] ].
  - intros ->. run. rewrite Hs. simpl. rewrite Hs. simpl.
    rewrite lookup_insert_eq. split; [done|].
    eexists; split; [done|]. unfold bookings; simpl. lia.
Qed.

Lemma decrement_floors_at_zero_witness :
  bookings_at
    (after (db_manager.decrement_time_slot_bookings "s1") (one_slot 5 0 []))
    "s1" = Some 0.
Proof.
  destruct (decrement_floors_at_zero "s1" (slot_row "s1" 5 0)
              (one_slot 5 0 [])) as (_ & H); [reflexivity|].
  destruct (H eq_refl) as (_ & n & Hn & _ & H0 & _).
  rewrite Hn. f_equal. apply H0. reflexivity.
Defined.

(** ** Reading the slots of a date *)

Lemma elem_of_select_by_date d tbl (s : TimeSlot) :
  s ∈ select_by_date d tbl ↔ date s = d ∧ ∃ key, tbl !! key = Some s.
Proof.
  unfold select_by_date. rewrite merge_sort_Permutation.
  rewrite list_elem_of_filter, list_elem_of_fmap. split.
  - intros [Hd [[key s'] [-> Hin]]]. split; [done|].
    exists key. by apply elem_of_map_to_list.
  - intros [Hd [key Hkey]]. split; [done|].
    exists (key, s). split; [done|]. by apply elem_of_map_to_list.
Qed.

(** C10: every record [get_available_slots] returns is a stored slot of
    that date, passed through as it is, with [available_spots =
    max_capacity - current_bookings] (defaults [MAX_APPOINTMENTS_PER_SLOT]
    and 0 for a missing column) and [is_available] exactly when that
    number is positive; it is negative, and the slot unavailable, when
    the counter exceeds the capacity. *)
Theorem available_slots_augment_stored_slots settings date_obj w
    (info : SlotInfo) :
  info ∈ result (db_manager.get_available_slots settings date_obj) w →
  (∃ key, slot_at w key = Some (info_slot info))
  ∧ date info = date_obj
  ∧ available_spots info
    = get_default (max_capacity info) (MAX_APPOINTMENTS_PER_SLOT settings)
      - get_default (current_bookings info) 0
  ∧ (is_available info = true ↔ available_spots info > 0)
  ∧ (get_default (max_capacity info) (MAX_APPOINTMENTS_PER_SLOT settings)
     < get_default (current_bookings info) 0 →
     available_spots info < 0 ∧ is_available info = false).
Proof.
  intros Hin.
  assert (∃ s : TimeSlot, info = db_manager.slot_info settings s
                          ∧ s ∈ select_by_date date_obj (time_slots w))
    as (s & -> & Hs).
  { revert Hin. open_world w. run.
    destruct fs as [|[] fs]; simpl; rewrite ?list_elem_of_fmap;
      try (intros (s & ? & ?); by exists s).
    all: by intros ?%elem_of_nil. }
  apply elem_of_select_by_date in Hs as [Hd [key Hkey]].
  unfold slot_at. simpl. repeat split; eauto.
  - intros ?%bool_decide_eq_true. done.
  - intros ?. by apply bool_decide_eq_true.
  - lia.
  - apply bool_decide_eq_false. lia.
Qed.

Lemma available_slots_witness :
  available_spots
    (db_manager.slot_info default_settings (slot_row "s1" 5 7)) = -2
  ∧ is_available
      (db_manager.slot_info default_settings (slot_row "s1" 5 7)) = false.
Proof.
  destruct (available_slots_augment_stored_slots default_settings
              "2025-01-06" (one_slot 5 7 [])
              (db_manager.slot_info default_settings (slot_row "s1" 5 7)))
    as (_ & _ & Hspots & _ & Hneg).
  - vm_compute. apply list_elem_of_here.
  - split; [exact Hspots | apply Hneg; reflexivity].
Defined.

(** ** Cancellation *)

(** An appointment that is not in the store: [cancel_appointment] returns
    [False] and touches neither table. *)
Lemma cancel_absent_appointment appointment_id w :
  appointments w !! appointment_id = None →
  result (crud_handler.cancel_appointment appointment_id) w = false
  ∧ appointments (after (crud_handler.cancel_appointment appointment_id) w)
    = appointments w
  ∧ time_slots (after (crud_handler.cancel_appointment appointment_id) w)
    = time_slots w.
Proof.
  intros Ha. open_world w. unfold crud_handler.cancel_appointment. run.
  destruct fs as [|[] fs]; simpl; rewrite ?Ha; done.
Qed.

(** C5 at its failing input: the appointment ["a1"] is already cancelled
    and its slot counts 2 bookings; [cancel_appointment "a1"] does not look
    at the status, answers [True] and takes the counter down to 1. *)
Lemma cancel_of_a_cancelled_appointment :
  status_at (booked_world "cancelled") "a1" = Some "cancelled"%string
  ∧ bookings_at (booked_world "cancelled") "s1" = Some 2
  ∧ result (crud_handler.cancel_appointment "a1") (booked_world "cancelled")
    = true
  ∧ bookings_at
      (after (crud_handler.cancel_appointment "a1") (booked_world "cancelled"))
      "s1" = Some 1.
Proof. by vm_compute. Qed.

(** Cancelling the same confirmed appointment twice releases two places. *)
Lemma cancel_twice_decrements_twice :
  result (crud_handler.cancel_appointment "a1")
    (after (crud_handler.cancel_appointment "a1") (booked_world "confirmed"))
  = true
  ∧ bookings_at
      (after (crud_handler.cancel_appointment "a1")
         (after (crud_handler.cancel_appointment "a1")
            (booked_world "confirmed")))
      "s1" = Some 0.
Proof. by vm_compute. Qed.

(** ** Reminders *)

(** C9: [_send_reminder] sets [reminder_sent] only after the e-mail call
    returned [True], and then only on the appointment it was called for;
    when the call returns [False] or raises, the [appointments] table is
    left as it was and one warning or error record is logged (the model
    has no way to let an exception out of [_send_reminder]: its [except]
    clause catches them all); a flag that is set is never cleared, so it
    goes from false to true at most once.  A tick ([check_reminders])
    changes no flag at all. *)
Theorem reminder_flag_follows_successful_send (appointment : Appointment) w :
  (∀ key,
     reminder_at (after (scheduler._send_reminder appointment) w) key
     = Some true →
     reminder_at w key = Some true
     ∨ (result send_mail w = MailSent ∧ key = appt_id appointment))
  ∧ (result send_mail w ≠ MailSent →
     appointments (after (scheduler._send_reminder appointment) w)
     = appointments w
     ∧ ∃ lvl msg,
         log (after (scheduler._send_reminder appointment) w)
         = log w ++ [(lvl, msg)] ∧ lvl ≠ INFO)
  ∧ (∀ key,
       reminder_at w key = Some true →
       reminder_at (after (scheduler._send_reminder appointment) w) key
       = Some true)
  ∧ (∀ settings key,
       reminder_at (after (scheduler.check_reminders settings) w) key
       = reminder_at w key).
Proof.
  destruct w as [tbl apps fs ms now lg].
  unfold scheduler._send_reminder, scheduler.check_reminders,
    scheduler._get_upcoming_appointments, reminder_at.
  run. split; [|split; [|split]].
  - intros key.
    destruct ms as [|[] ms]; simpl; auto;
      destruct fs as [|[] fs]; simpl; auto;
      destruct (apps !! appt_id appointment) as [a|] eqn:Ha; simpl; auto;
      rewrite lookup_insert; destruct (decide _); simpl; auto.
  - destruct ms as [|[] ms]; simpl; try done; intros _;
      (split; [done|]); (eexists _, _; split; [done|done]).
  - intros key.
    destruct ms as [|[] ms]; simpl; auto;
      destruct fs as [|[] fs]; simpl; auto;
      destruct (apps !! appt_id appointment) as [a|] eqn:Ha; simpl; auto;
      rewrite lookup_insert; destruct (decide _) as [<-|]; simpl; auto.
  - done.
Qed.

Lemma reminder_flag_witness :
  appointments
    (after (scheduler._send_reminder (appointment_row "a1" "confirmed"))
       (mkWorld ∅ {[ "a1"%string := appointment_row "a1" "confirmed" ]}
                [] [MailNotSent] 100 []))
  = {[ "a1"%string := appointment_row "a1" "confirmed" ]}.
Proof.
  destruct (reminder_flag_follows_successful_send
              (appointment_row "a1" "confirmed")
              (mkWorld ∅ {[ "a1"%string := appointment_row "a1" "confirmed" ]}
                       [] [MailNotSent] 100 []))
    as (_ & Hfail & _).
  destruct Hfail as [Hsame _]; [discriminate | exact Hsame].
Defined.

(** ** Booking: compensation *)

Lemma created_appointment_is_stored data w (a : Appointment) w2 :
  db_manager.create_appointment data w = (Some a, w2) →
  appointments w2 !! appt_id a = Some a ∧ time_slots w2 = time_slots w.
Proof.
  open_world w. run. destruct fs as [|[] fs]; simpl; intros [= <- <-]; simpl;
    by rewrite lookup_insert_eq.
Qed.

Lemma increment_keeps_appointments key w :
  appointments (after (db_manager.increment_time_slot_bookings key) w)
  = appointments w.
Proof.
  open_world w. run.
  destruct fs as [|[] [|[] fs]]; simpl; try done;
    destruct (tbl !! key); simpl; try done; destruct (tbl !! key); done.
Qed.

Lemma delete_appointment_outcome key w (a : Appointment) :
  appointments w !! key = Some a →
  (result (db_manager.delete_appointment key) w = true
   ∧ appointments (after (db_manager.delete_appointment key) w) !! key = None)
  ∨ (result (db_manager.delete_appointment key) w = false
     ∧ appointments (after (db_manager.delete_appointment key) w)
       = appointments w).
Proof.
  intros Ha. open_world w. run.
  destruct fs as [|[] fs]; simpl; rewrite ?Ha; simpl;
    rewrite ?lookup_delete_eq; auto.
Qed.

Lemma get_appointment_absent key w :
  appointments w !! key = None →
  result (db_manager.get_appointment key) w = None.
Proof. intros Ha. open_world w. run. by destruct fs as [|[] fs]. Qed.

(** C4, as the specification words it, fails.  The store answers the slot
    lookup and the insert, then raises on the increment and on the
    compensating delete: [create_appointment] returns [None], exactly
    what it returns for a slot that is full, and the confirmed
    appointment ["0"] stays in the store with no place counted for it. *)
Lemma failed_compensation_returns_plain_none :
  result (crud_handler.create_appointment (request "s1"))
    (one_slot 5 0 [false; false; true; true]) = None
  ∧ status_at
      (after (crud_handler.create_appointment (request "s1"))
         (one_slot 5 0 [false; false; true; true])) "0"
    = Some "confirmed"%string
  ∧ bookings_at
      (after (crud_handler.create_appointment (request "s1"))
         (one_slot 5 0 [false; false; true; true])) "s1" = Some 0
  ∧ result (crud_handler.create_appointment (request "s1")) (one_slot 5 5 [])
    = None.
Proof. by vm_compute. Qed.

(** C4, amended: when the appointment row was created and the increment
    then fails, [create_appointment] calls [delete_appointment] on that
    row and returns [None].  If the delete succeeds the row is gone (a
    lookup by its id finds nothing); if the delete fails too the row is
    still there and the caller gets the same [None]. *)
Theorem failed_increment_is_compensated
    appointment_data w time_slot w1 (appointment : Appointment) w2 w3 :
  db_manager.get_time_slot (time_slot_id appointment_data) w
  = (Some time_slot, w1) →
  bookings time_slot < get_default (max_capacity time_slot) 5 →
  db_manager.create_appointment
    {| appt_base := appointment_data; status := "confirmed";
       reminder_sent := None;
       appt_created_at := clock w1; appt_updated_at := clock w1 |}
    (after utcnow w1)
  = (Some appointment, w2) →
  db_manager.increment_time_slot_bookings (time_slot_id appointment_data) w2
  = (false, w3) →
  crud_handler.create_appointment appointment_data w
  = (None, after (db_manager.delete_appointment (appt_id appointment)) w3)
  ∧ (result (db_manager.delete_appointment (appt_id appointment)) w3 = true →
     result (db_manager.get_appointment (appt_id appointment))
       (after (crud_handler.create_appointment appointment_data) w)
     = None)
  ∧ (result (db_manager.delete_appointment (appt_id appointment)) w3 = false →
     appointments
       (after (crud_handler.create_appointment appointment_data) w)
       !! appt_id appointment = Some appointment).
Proof.
  intros Hslot Hroom Hcreate Hincr.
  assert (crud_handler.create_appointment appointment_data w
          = (None,
             after (db_manager.delete_appointment (appt_id appointment)) w3))
    as Hrun.
  { unfold crud_handler.create_appointment, bind at 1.
    rewrite Hslot. unfold bookings in Hroom.
    rewrite bool_decide_eq_false_2 by lia.
    unfold bind at 1. change (utcnow w1) with (clock w1, after utcnow w1).
    cbv beta iota. unfold bind at 1. rewrite Hcreate.
    unfold bind at 1. rewrite Hincr. simpl.
    unfold bind, after, ret.
    by destruct (db_manager.delete_appointment (appt_id appointment) w3). }
  split; [exact Hrun|].
  unfold after at 1 2. rewrite Hrun. simpl.
  apply created_appointment_is_stored in Hcreate as [Hstored _].
  assert (appointments w3 !! appt_id appointment = Some appointment) as Hw3.
  { pose proof (increment_keeps_appointments
                  (time_slot_id appointment_data) w2) as Hk.
    unfold after in Hk. rewrite Hincr in Hk. simpl in Hk. by rewrite Hk. }
  destruct (delete_appointment_outcome _ _ _ Hw3) as [[Hr Hgone]|[Hr Hkept]].
  - split; [|rewrite Hr; done]. intros _.
    by apply get_appointment_absent.
  - split; [rewrite Hr; done|]. intros _. by rewrite Hkept.
Qed.

Lemma failed_increment_is_compensated_witness :
  result (crud_handler.create_appointment (request "s1"))
    (one_slot 5 0 [false; false; true]) = None
  ∧ result (db_manager.get_appointment "0")
      (after (crud_handler.create_appointment (request "s1"))
         (one_slot 5 0 [false; false; true])) = None.
Proof.
  destruct (failed_increment_is_compensated (request "s1")
              (one_slot 5 0 [false; false; true])
              (slot_row "s1" 5 0)
              (one_slot 5 0 [false; true])
              (mkAppointment "0"
                 (mkAppointmentData (request "s1") "confirmed" None 100 100))
              (mkWorld {[ "s1"%string := slot_row "s1" 5 0 ]}
                 {[ "0"%string :=
                      mkAppointment "0"
                        (mkAppointmentData (request "s1") "confirmed" None
                                           100 100) ]}
                 [true] [] 101 [])
              (mkWorld {[ "s1"%string := slot_row "s1" 5 0 ]}
                 {[ "0"%string :=
                      mkAppointment "0"
                        (mkAppointmentData (request "s1") "confirmed" None
                                           100 100) ]}
                 [] [] 101 [(ERROR, "get_time_slot failed"%string)]))
    as (Hrun & Hgone & _);
    [reflexivity | vm_compute; reflexivity | reflexivity | reflexivity |].
  split.
  - unfold result. rewrite Hrun. reflexivity.
  - apply Hgone. reflexivity.
Defined.

(** ** The capacity invariant *)

Ltac split_cases :=
  repeat match goal with
  | |- context [match ?l with [] => _ | _ :: _ => _ end] =>
      is_var l; destruct l as [|[] ?]; simpl
  | |- context [match ?m !! ?k with Some _ => _ | None => _ end] =>
      let E := fresh "E" in destruct (m !! k) eqn:E; simpl
  | |- context [bool_decide ?P] => case_bool_decide; simpl
  end.

Lemma increment_slots key w :
  time_slots (after (db_manager.increment_time_slot_bookings key) w)
  = time_slots w
  ∨ counter_moved (λ n, n + 1) key w
      (after (db_manager.increment_time_slot_bookings key) w).
Proof.
  unfold counter_moved. open_world w. run. split_cases; simplify_eq; eauto.
Qed.

Lemma decrement_slots key w :
  time_slots (after (db_manager.decrement_time_slot_bookings key) w)
  = time_slots w
  ∨ counter_moved (λ n, Z.max 0 (n - 1)) key w
      (after (db_manager.decrement_time_slot_bookings key) w).
Proof.
  unfold counter_moved. open_world w. run. split_cases; simplify_eq; eauto.
Qed.

Lemma create_appointment_slots appointment_data w :
  time_slots (after (crud_handler.create_appointment appointment_data) w)
  = time_slots w
  ∨ (counter_moved (λ n, n + 1) (time_slot_id appointment_data) w
       (after (crud_handler.create_appointment appointment_data) w)
     ∧ ∀ s : TimeSlot, time_slots w !! time_slot_id appointment_data = Some s →
         bookings s < get_default (max_capacity s) 5).
Proof.
  unfold counter_moved. open_world w.
  unfold crud_handler.create_appointment. run.
  split_cases; simplify_eq; auto.
  all: right; split;
    [ eexists _, _; split; reflexivity
    | intros ? [= <-]; unfold bookings; lia ].
Qed.

Lemma cancel_appointment_slots appointment_id w :
  time_slots (after (crud_handler.cancel_appointment appointment_id) w)
  = time_slots w
  ∨ ∃ key, counter_moved (λ n, Z.max 0 (n - 1)) key w
             (after (crud_handler.cancel_appointment appointment_id) w).
Proof.
  unfold counter_moved. open_world w.
  unfold crud_handler.cancel_appointment. run.
  split_cases; simplify_eq; auto.
  all: right; eexists _, _, _; split; [eassumption|reflexivity].
Qed.

Lemma capacity_inv_same w w' :
  time_slots w' = time_slots w → capacity_inv w → capacity_inv w'.
Proof. unfold capacity_inv. by intros ->. Qed.

Lemma capacity_inv_moved f key w w' :
  counter_moved f key w w' →
  (∀ s : TimeSlot, time_slots w !! key = Some s → slot_ok s →
     0 ≤ f (bookings s) ∧ ∀ m, max_capacity s = Some m → f (bookings s) ≤ m) →
  capacity_inv w → capacity_inv w'.
Proof.
  intros (s & t & Hs & Hw') Hf Hinv key' s'. rewrite Hw', lookup_insert.
  destruct (decide (key = key')) as [<-|]; [|by apply Hinv].
  intros [= <-]. destruct (Hf s Hs (Hinv _ _ Hs)) as [H0 Hm].
  split; [done|]. intros m Hcap. by apply Hm.
Qed.

(** ** Slot generation *)

Lemma extends_nil tbl : extends tbl [] tbl.
Proof.
  split; [done|]. split; [by intros ? ?%elem_of_nil|].
  split; [auto|apply NoDup_nil_2].
Qed.

Lemma extends_fresh tbl data :
  extends tbl [mkTimeSlot (fresh (dom tbl)) data]
    (<[fresh (dom tbl) := mkTimeSlot (fresh (dom tbl)) data]> tbl).
Proof.
  assert (tbl !! fresh (dom tbl) = None) as Hfresh
    by apply not_elem_of_dom, is_fresh.
  split; [|split; [|split]].
  - intros key s Hs. rewrite lookup_insert_ne; [done|]. congruence.
  - intros s ->%list_elem_of_singleton. simpl.
    by rewrite lookup_insert_eq.
  - intros key s. rewrite lookup_insert.
    destruct (decide _) as [<-|]; [|auto].
    intros [= <-]. right. split; [apply list_elem_of_here|done].
  - apply NoDup_singleton.
Qed.

Lemma extends_app tbl new1 tbl1 new2 tbl2 :
  extends tbl new1 tbl1 → extends tbl1 new2 tbl2 →
  extends tbl (new1 ++ new2) tbl2.
Proof.
  intros (Ha1 & Ha2 & Ha3 & Ha4) (Hb1 & Hb2 & Hb3 & Hb4).
  split; [|split; [|split]].
  - auto.
  - intros s [Hs|Hs]%elem_of_app.
    + destruct (Ha2 s Hs). auto.
    + destruct (Hb2 s Hs) as [? Hnone]. split; [done|].
      destruct (tbl !! slot_id s) eqn:E; [|done].
      apply Ha1 in E. congruence.
  - intros key s Hs. destruct (Hb3 key s Hs) as [Hs1|[? ?]].
    + destruct (Ha3 key s Hs1) as [?|[? ?]]; [by left|].
      right. split; [|done]. apply elem_of_app. by left.
    + right. split; [|done]. apply elem_of_app. by right.
  - apply NoDup_app. split; [done|]. split; [|done].
    intros s Hs1 Hs2. destruct (Ha2 s Hs1). destruct (Hb2 s Hs2). congruence.
Qed.

Lemma emit_slot_spec settings date_obj current_time slot_end slots w l w' :
  db_manager.emit_slot settings date_obj current_time slot_end slots w
  = (l, w') →
  ∃ new,
    l = slots ++ new
    ∧ extends (time_slots w) new (time_slots w')
    ∧ appointments w' = appointments w
    ∧ Forall (λ s : TimeSlot,
                date s = date_obj
                ∧ start_time s = strftime_HM current_time
                ∧ end_time s = strftime_HM slot_end
                ∧ current_bookings s = Some 0
                ∧ max_capacity s
                  = Some (MAX_APPOINTMENTS_PER_SLOT settings)) new
    ∧ (healthy w → healthy w' ∧ length new = 1%nat).
Proof.
  open_world w. unfold db_manager.emit_slot. run.
  destruct fs as [|[] fs]; simpl; intros [= <- <-]; simpl.
  2: { exists []. rewrite app_nil_r.
       split; [done|]. split; [apply extends_nil|]. done. }
  all: eexists [_]; split; [reflexivity|];
    split; [apply extends_fresh|]; split; [done|]; split;
      [by repeat constructor | done].
Qed.

Lemma emitted_from_next settings date_obj duration until from s :
  emitted_from settings date_obj duration until (from + duration) s →
  emitted_from settings date_obj duration until from s.
Proof.
  intros (k & H). exists (S k). simpl in *.
  replace (from + Z.of_nat (S k) * duration)
    with (from + duration + Z.of_nat k * duration) by lia.
  exact H.
Qed.

Lemma generate_loop_spec settings date_obj duration until fuel :
  ∀ current_time slots w r w',
    db_manager.generate_loop settings fuel date_obj duration until
      current_time slots w = (r, w') →
    ∃ new,
      (∀ l, r = Some l → l = slots ++ new)
      ∧ extends (time_slots w) new (time_slots w')
      ∧ appointments w' = appointments w
      ∧ Forall (emitted_from settings date_obj duration until current_time) new
      ∧ (healthy w →
         healthy w'
         ∧ match slot_starts fuel duration until current_time with
           | None => r = None
           | Some starts =>
               r = Some (slots ++ new)
               ∧ (λ s : TimeSlot, start_time s) <$> new
                 = strftime_HM <$> starts
           end).
Proof.
  induction fuel as [|fuel IH]; intros current_time slots w r w'; simpl.
  - case_bool_decide; intros [= <- <-]; exists [];
      rewrite ?app_nil_r; (split; [congruence|]);
      (split; [apply extends_nil|]); done.
  - case_bool_decide as Hlt.
    2: { intros [= <- <-]; exists [];
           rewrite ?app_nil_r; (split; [congruence|]);
           (split; [apply extends_nil|]); done. }
    unfold bind at 1. case_bool_decide as Hfit.
    + destruct (db_manager.emit_slot _ _ _ _ _ w) as [l1 w1] eqn:E1.
      intros Hloop.
      apply emit_slot_spec in E1
        as (new1 & -> & Hext1 & Happ1 & Hnew1 & Hhealthy1).
      apply IH in Hloop as (new2 & Hres & Hext2 & Happ2 & Hnew2 & Hhealthy2).
      exists (new1 ++ new2). split; [|split; [|split; [|split]]].
      * intros l Hl. rewrite (Hres l Hl). by rewrite app_assoc.
      * by eapply extends_app.
      * congruence.
      * apply Forall_app. split.
        -- eapply Forall_impl; [exact Hnew1|].
           intros s (? & ? & ? & ? & ?). exists 0%nat. simpl.
           rewrite Z.add_0_r. repeat split; auto.
        -- eapply Forall_impl; [exact Hnew2|].
           intros s. apply emitted_from_next.
      * intros Hw. destruct (Hhealthy1 Hw) as [Hw1 Hlen].
        destruct (Hhealthy2 Hw1) as [Hw2 Hstarts]. split; [done|].
        destruct (slot_starts fuel duration until (current_time + duration))
          as [starts|]; [|done].
        destruct Hstarts as [-> Hstarts]. rewrite app_assoc.
        split; [done|]. rewrite fmap_app, Hstarts.
        destruct new1 as [|s1 [|]]; try done. simpl.
        apply Forall_cons in Hnew1 as [(? & -> & ?) _]. done.
    + simpl. intros Hloop.
      apply IH in Hloop as (new2 & Hres & Hext2 & Happ2 & Hnew2 & Hhealthy2).
      exists new2. split; [done|]. split; [done|]. split; [done|]. split.
      * eapply Forall_impl; [exact Hnew2|].
        intros s. apply emitted_from_next.
      * intros Hw. destruct (Hhealthy2 Hw) as [Hw2 Hstarts]. split; [done|].
        by destruct (slot_starts fuel duration until
                       (current_time + duration)).
Qed.

Lemma get_time_slots_by_date_spec date_obj w l w1 :
  db_manager.get_time_slots_by_date date_obj w = (l, w1) →
  time_slots w1 = time_slots w
  ∧ appointments w1 = appointments w
  ∧ (l = [] ∨ l = select_by_date date_obj (time_slots w))
  ∧ (healthy w →
     healthy w1 ∧ l = select_by_date date_obj (time_slots w)).
Proof.
  open_world w. run.
  destruct fs as [|[] fs]; simpl; intros [= <- <-]; simpl; auto.
  all: repeat split; auto; done.
Qed.

(** The two ways [generate_time_slots_for_date] goes: the date has slots
    already and they are returned, or the loop runs and adds [new]. *)
Lemma generate_spec settings fuel date_obj duration w r w' :
  db_manager.generate_time_slots_for_date settings fuel date_obj duration w
  = (r, w') →
  appointments w' = appointments w
  ∧ (healthy w → healthy w')
  ∧ ((r = Some (select_by_date date_obj (time_slots w))
      ∧ select_by_date date_obj (time_slots w) ≠ []
      ∧ result (db_manager.get_time_slots_by_date date_obj) w ≠ []
      ∧ time_slots w' = time_slots w)
     ∨ (result (db_manager.get_time_slots_by_date date_obj) w = []
        ∧ ∃ new,
            extends (time_slots w) new (time_slots w')
            ∧ (∀ l, r = Some l → l = new)
            ∧ Forall (emitted settings date_obj duration) new
            ∧ (healthy w →
               match working_hours settings with
               | None => r = Some [] ∧ new = []
               | Some (from, until) =>
                   match slot_starts fuel duration until from with
                   | None => r = None
                   | Some starts =>
                       r = Some new
                       ∧ (λ s : TimeSlot, start_time s) <$> new
                         = strftime_HM <$> starts
                   end
               end))).
Proof.
  unfold db_manager.generate_time_slots_for_date, bind at 1, result.
  destruct (db_manager.get_time_slots_by_date date_obj w) as [l w1] eqn:E1.
  apply get_time_slots_by_date_spec in E1 as (Hts1 & Happ1 & Hl & Hhealthy1).
  simpl. destruct l as [|s l].
  - destruct (working_hours settings) as [[from until]|] eqn:Hhours.
    + unfold bind at 1.
      destruct (db_manager.generate_loop _ _ _ _ _ _ _ w1) as [r1 w2] eqn:E2.
      apply generate_loop_spec in E2
        as (new & Hres & Hext & Happ2 & Hnew & Hhealthy2).
      rewrite Hts1 in Hext. simpl in Hres. intros Hfin.
      assert (time_slots w' = time_slots w2 ∧ appointments w' = appointments w2
              ∧ faults w' = faults w2 ∧ r = r1) as (Hts & Happ & Hf & ->).
      { revert Hfin. destruct r1; run; intros [= <- <-]; done. }
      clear Hfin. split; [congruence|]. split.
      { intros Hw. destruct (Hhealthy1 Hw) as [Hw1 _].
        destruct (Hhealthy2 Hw1) as [Hw2 _]. unfold healthy in *. congruence. }
      right. split; [done|]. exists new. rewrite Hts.
      split; [done|]. split; [done|]. split.
      * eapply Forall_impl; [exact Hnew|]. intros s Hs.
        exists from, until. done.
      * intros Hw. destruct (Hhealthy1 Hw) as [Hw1 _].
        destruct (Hhealthy2 Hw1) as [_ Hstarts].
        by destruct (slot_starts fuel duration until from).
    + run. intros [= <- <-]. simpl. split; [done|]. split.
      { intros Hw. by destruct (Hhealthy1 Hw). }
      right. split; [done|]. exists []. rewrite Hts1.
      split; [apply extends_nil|]. split; [congruence|]. split; [done|].
      done.
  - run. intros [= <- <-]. simpl. split; [done|]. split.
    { intros Hw. by destruct (Hhealthy1 Hw). }
    left. destruct Hl as [?|Hl]; [done|]. rewrite <- Hl. done.
Qed.

Lemma capacity_inv_extends settings date_obj duration w w' new :
  0 ≤ MAX_APPOINTMENTS_PER_SLOT settings →
  extends (time_slots w) new (time_slots w') →
  Forall (emitted settings date_obj duration) new →
  capacity_inv w → capacity_inv w'.
Proof.
  intros Hmax (_ & _ & Hfrom & _) Hnew Hinv key s Hs.
  destruct (Hfrom key s Hs) as [Hold|[Hin _]]; [by eapply Hinv|].
  rewrite Forall_forall in Hnew.
  destruct (Hnew s Hin) as (? & ? & _ & k & _ & _ & _ & _ & _ & Hcb & Hcap).
  unfold slot_ok, bookings. rewrite Hcb, Hcap. simpl.
  split; [done|]. by intros m [= <-].
Qed.

Lemma capacity_inv_one_slot cap booked fs :
  0 ≤ booked ≤ cap → capacity_inv (one_slot cap booked fs).
Proof.
  intros Hb key s. simpl. intros [_ <-]%lookup_singleton_Some.
  unfold slot_ok, bookings. simpl. split; [lia|]. intros m [= <-]. lia.
Qed.

(** C2, as the specification words it, fails: the store with the single
    slot at 5 of 5 satisfies the invariant, and after
    [increment_time_slot_bookings] it does not (6 of 5). *)
Lemma increment_breaks_capacity_invariant :
  capacity_inv (one_slot 5 5 [])
  ∧ ¬ capacity_inv
        (after (db_manager.increment_time_slot_bookings "s1")
           (one_slot 5 5 [])).
Proof.
  split; [by apply capacity_inv_one_slot|].
  intros Hinv.
  destruct (Hinv "s1"%string (with_bookings 6 100 (slot_row "s1" 5 5)))
    as [_ Hcap]; [reflexivity|].
  specialize (Hcap 5 eq_refl). vm_compute in Hcap. by apply Hcap.
Qed.

(** C2, amended: [create_appointment], [cancel_appointment],
    [decrement_time_slot_bookings] and [generate_time_slots_for_date]
    (with a configured capacity that is not negative) keep
    [0 <= current_bookings <= max_capacity] on every slot, whatever the
    store does; [increment_time_slot_bookings] called on its own keeps it
    when the slot it is called for is below its capacity. *)
Theorem capacity_invariant_preserved settings fuel w :
  capacity_inv w →
  0 ≤ MAX_APPOINTMENTS_PER_SLOT settings →
  (∀ appointment_data,
     capacity_inv
       (after (crud_handler.create_appointment appointment_data) w))
  ∧ (∀ appointment_id,
       capacity_inv
         (after (crud_handler.cancel_appointment appointment_id) w))
  ∧ (∀ key,
       capacity_inv (after (db_manager.decrement_time_slot_bookings key) w))
  ∧ (∀ date_obj duration,
       capacity_inv
         (after (db_manager.generate_time_slots_for_date
                   settings fuel date_obj duration) w))
  ∧ (∀ key s,
       slot_at w key = Some s →
       (∀ m, max_capacity s = Some m → bookings s < m) →
       capacity_inv (after (db_manager.increment_time_slot_bookings key) w)).
Proof.
  intros Hinv Hmax. split; [|split; [|split; [|split]]].
  - intros appointment_data.
    destruct (create_appointment_slots appointment_data w)
      as [Hsame|[Hmoved Hroom]]; [by eapply capacity_inv_same|].
    eapply capacity_inv_moved; [exact Hmoved| |exact Hinv].
    intros s Hs [H0 Hcap]. specialize (Hroom s Hs). split; [lia|].
    intros m Hm. rewrite Hm in Hroom. simpl in Hroom. lia.
  - intros appointment_id.
    destruct (cancel_appointment_slots appointment_id w)
      as [Hsame|[key Hmoved]]; [by eapply capacity_inv_same|].
    eapply capacity_inv_moved; [exact Hmoved| |exact Hinv].
    intros s Hs [H0 Hcap]. split; [lia|].
    intros m Hm. specialize (Hcap m Hm). lia.
  - intros key.
    destruct (decrement_slots key w) as [Hsame|Hmoved];
      [by eapply capacity_inv_same|].
    eapply capacity_inv_moved; [exact Hmoved| |exact Hinv].
    intros s Hs [H0 Hcap]. split; [lia|].
    intros m Hm. specialize (Hcap m Hm). lia.
  - intros date_obj duration. unfold after.
    destruct (db_manager.generate_time_slots_for_date _ _ _ _ w)
      as [r w'] eqn:E.
    apply generate_spec in E as (_ & _ & [(_ & _ & _ & Hsame)|(_ & Hgen)]).
    + by eapply capacity_inv_same.
    + destruct Hgen as (new & Hext & _ & Hnew & _). simpl.
      by eapply capacity_inv_extends.
  - intros key s Hs Hroom.
    destruct (increment_slots key w) as [Hsame|Hmoved];
      [by eapply capacity_inv_same|].
    eapply capacity_inv_moved; [exact Hmoved| |exact Hinv].
    unfold slot_at in Hs. intros s' Hs' [H0 Hcap]. simplify_eq.
    split; [lia|]. intros m Hm. specialize (Hroom m Hm). lia.
Qed.

Lemma capacity_invariant_witness :
  capacity_inv
    (after (crud_handler.create_appointment (request "s1"))
       (one_slot 5 4 [])).
Proof.
  destruct (capacity_invariant_preserved default_settings 0
              (one_slot 5 4 [])) as (Hbook & _).
  - apply capacity_inv_one_slot. lia.
  - simpl. lia.
  - apply Hbook.
Defined.




Lemma slots_by_date_healthy date_obj w :
  healthy w →
  result (db_manager.get_time_slots_by_date date_obj) w
  = select_by_date date_obj (time_slots w).
Proof. intros Hw. open_world w. by run. Qed.




Lemma slot_starts_closed_form duration until :
  0 < duration →
  ∀ fuel current_time,
    (Z.to_nat (until - current_time) ≤ fuel)%nat →
    slot_starts fuel duration until current_time
    = Some ((λ k : nat, current_time + Z.of_nat k * duration)
              <$> seq 0 (Z.to_nat ((until - current_time) / duration))).
Proof.
  intros Hd. induction fuel as [|fuel IH]; intros current_time Hfuel; simpl.
  - rewrite bool_decide_eq_false_2 by lia.
    assert ((until - current_time) / duration ≤ 0) as Hn
      by (apply Z.div_le_upper_bound; lia).
    by replace (Z.to_nat ((until - current_time) / duration)) with 0%nat
      by lia.
  - case_bool_decide as Hlt.
    + rewrite IH by lia.
      assert ((until - (current_time + duration)) / duration
              = (until - current_time) / duration - 1) as Hn.
      { replace (until - (current_time + duration))
          with (until - current_time + (-1) * duration) by lia.
        rewrite Z.div_add by lia. lia. }
      rewrite Hn. case_bool_decide as Hfit.
      * assert (1 ≤ (until - current_time) / duration) as Hone
          by (apply Z.div_le_lower_bound; lia).
        replace (Z.to_nat ((until - current_time) / duration))
          with (S (Z.to_nat ((until - current_time) / duration - 1)))
          by lia.
        simpl. f_equal. f_equal; [lia|].
        rewrite <- fmap_S_seq, <- list_fmap_compose.
        apply list_fmap_ext. intros _ k _. simpl. lia.
      * assert ((until - current_time) / duration = 0) as ->
          by (apply Z.div_small; lia).
        done.
    + assert ((until - current_time) / duration ≤ 0) as Hn
        by (apply Z.div_le_upper_bound; lia).
      by replace (Z.to_nat ((until - current_time) / duration)) with 0%nat
        by lia.
Qed.

Lemma working_hours_bounds settings from until :
  working_hours settings = Some (from, until) →
  0 ≤ from < 1440 ∧ 0 ≤ until < 1440.
Proof.
  unfold working_hours, combine.
  destruct (parse_hours _) as [[sh sm]|]; [|done].
  destruct (parse_hours _) as [[eh em]|]; [|done].
  repeat case_match; try done. intros [= <- <-].
  repeat match goal with
         | H : _ && _ = true |- _ => apply andb_prop in H as [? ?]
         end.
  simplify_eq. lia.
Qed.

Lemma strftime_reads_back_all :
  forallb (λ t, bool_decide (parse_hours (strftime_HM t)
                             = Some (t / 60, t mod 60)))
          (seqZ 0 1440) = true.
Proof. vm_compute. reflexivity. Qed.






(** ** Several attempts on one slot *)

(** A caller left alone goes through [create_appointment]: five steps
    from [Start] end in [Finished] with the result and the world of the
    function. *)
Lemma run_alone_is_create_appointment appointment_data w :
  interleaving.run_alone 5 (interleaving.Start appointment_data) w
  = (interleaving.Finished
       (result (crud_handler.create_appointment appointment_data) w),
     after (crud_handler.create_appointment appointment_data) w).
Proof.
  open_world w.
  unfold interleaving.run_alone, interleaving.step,
    crud_handler.create_appointment.
  run. split_cases; simplify_eq; reflexivity.
Qed.

(** C3, as the specification words it, fails once the requests of two
    attempts interleave.  One place is left (0 of 1); both callers read
    the slot before either writes: both pass the capacity test, both
    create their appointment, both increments are applied.  Two
    successes, no refusal, and the slot ends at 2 of 1. *)
Lemma two_callers_take_the_last_place :
  interleaving.outcome
    <$> result (interleaving.run_schedule [0; 1; 0; 0; 0; 0; 1; 1; 1; 1]%nat
                  [interleaving.Start (request "s1");
                   interleaving.Start (request "s1")])
          (one_slot 1 0 [])
  = [Some (Some (mkAppointment "0"
                   (mkAppointmentData (request "s1") "confirmed" None
                                      100 100)));
     Some (Some (mkAppointment "1"
                   (mkAppointmentData (request "s1") "confirmed" None
                                      102 102)))]
  ∧ capacity_at (one_slot 1 0 []) "s1" = Some (Some 1)
  ∧ bookings_at
      (after (interleaving.run_schedule [0; 1; 0; 0; 0; 0; 1; 1; 1; 1]%nat
                [interleaving.Start (request "s1");
                 interleaving.Start (request "s1")])
         (one_slot 1 0 [])) "s1" = Some 2.
Proof. by vm_compute. Qed.

(** One attempt on a store that answers: it succeeds and takes one place
    when the slot is below its capacity, and is refused, changing no
    slot, when it is not. *)
Lemma create_appointment_healthy appointment_data (s : TimeSlot) w :
  healthy w →
  slot_at w (time_slot_id appointment_data) = Some s →
  healthy (after (crud_handler.create_appointment appointment_data) w)
  ∧ if bool_decide (bookings s < get_default (max_capacity s) 5) then
      booked (result (crud_handler.create_appointment appointment_data) w)
      = true
      ∧ slot_at (after (crud_handler.create_appointment appointment_data) w)
          (time_slot_id appointment_data)
        = Some (with_bookings (bookings s + 1) (clock w + 1) s)
    else
      booked (result (crud_handler.create_appointment appointment_data) w)
      = false
      ∧ time_slots
          (after (crud_handler.create_appointment appointment_data) w)
        = time_slots w.
Proof.
  intros Hw Hs. open_world w. unfold crud_handler.create_appointment, bookings.
  run. rewrite Hs. simpl.
  case_bool_decide as Hfull; simpl.
  - rewrite bool_decide_eq_false_2 by lia. done.
  - rewrite bool_decide_eq_true_2 by lia. rewrite Hs. simpl. rewrite Hs.
    simpl. destruct ms as [|[] ms]; simpl; by rewrite lookup_insert_eq.
Qed.

Lemma book_all_cons appointment_data attempts w :
  book_all (appointment_data :: attempts) w
  = (let '(r, w1) := crud_handler.create_appointment appointment_data w in
     let '(rs, w2) := book_all attempts w1 in (r :: rs, w2)).
Proof.
  simpl. unfold bind.
  destruct (crud_handler.create_appointment appointment_data w) as [r w1].
  by destruct (book_all attempts w1).
Qed.

Lemma book_all_counts key cap attempts :
  ∀ w (s : TimeSlot),
    healthy w →
    slot_at w key = Some s →
    max_capacity s = Some cap →
    0 ≤ bookings s ≤ cap →
    Forall (λ d, time_slot_id d = key) attempts →
    Z.of_nat (successes (result (book_all attempts) w))
    = Z.min (Z.of_nat (length attempts)) (cap - bookings s)
    ∧ (successes (result (book_all attempts) w)
       + refusals (result (book_all attempts) w))%nat
      = length attempts
    ∧ bookings_at (after (book_all attempts) w) key
      = Some (bookings s + Z.min (Z.of_nat (length attempts))
                                 (cap - bookings s)).
Proof.
  induction attempts as [|d attempts IH]; intros w s Hw Hs Hcap Hb Hkey.
  - split.
    { change (successes (result (book_all []) w)) with 0%nat.
      change (length (@nil AppointmentCreate)) with 0%nat. lia. }
    split; [done|].
    unfold bookings_at. change (after (book_all []) w) with w.
    rewrite Hs. simpl. f_equal. lia.
  - apply Forall_cons in Hkey as [<- Hkey].
    pose proof (create_appointment_healthy d s w Hw Hs) as [Hw1 Hone].
    unfold result, after in *. rewrite book_all_cons.
    destruct (crud_handler.create_appointment d w) as [r w1].
    destruct (book_all attempts w1) as [rs w2] eqn:Hrest.
    cbn [fst snd] in *. rewrite Hcap in Hone. cbn [get_default] in Hone.
    assert (∀ n t, bookings (with_bookings n t s) = n) as Hbw by done.
    assert (∀ n t, max_capacity (with_bookings n t s) = Some cap) as Hcw
      by done.
    unfold successes, refusals in *. rewrite !filter_cons.
    case_bool_decide as Hroom; destruct Hone as [Hr Hslot].
    + destruct (IH w1 _ Hw1 Hslot) as (Hsucc & Hall & Hfinal);
        [apply Hcw | rewrite Hbw; lia | done |].
      rewrite Hrest in *. cbn [fst snd] in *. rewrite Hbw in *.
      rewrite decide_True, decide_False by (rewrite Hr; done).
      cbn [length]. rewrite Hfinal.
      split; [lia|]. split; [lia|]. f_equal. lia.
    + assert (slot_at w1 (time_slot_id d) = Some s) as Hslot'
        by (unfold slot_at in *; by rewrite Hslot).
      destruct (IH w1 _ Hw1 Hslot') as (Hsucc & Hall & Hfinal);
        [done | lia | done |].
      rewrite Hrest in *. cbn [fst snd] in *.
      rewrite decide_False, decide_True by (rewrite Hr; done).
      cbn [length]. rewrite Hfinal.
      split; [lia|]. split; [lia|]. f_equal. lia.
Qed.

(** C3, amended: when the attempts run one after another on a store that
    answers, from an empty slot of capacity [cap >= 0], more than [cap]
    attempts give exactly [cap] successes, the others are refused, and
    the slot ends at [current_bookings = cap]. *)
Theorem attempts_in_turn_fill_the_slot key cap attempts w (s : TimeSlot) :
  healthy w →
  slot_at w key = Some s →
  max_capacity s = Some cap →
  bookings s = 0 →
  0 ≤ cap →
  Forall (λ d, time_slot_id d = key) attempts →
  cap < Z.of_nat (length attempts) →
  Z.of_nat (successes (result (book_all attempts) w)) = cap
  ∧ Z.of_nat (refusals (result (book_all attempts) w))
    = Z.of_nat (length attempts) - cap
  ∧ bookings_at (after (book_all attempts) w) key = Some cap.
Proof.
  intros Hw Hs Hcap Hb Hpos Hkey Hmore.
  destruct (book_all_counts key cap attempts w s)
    as (Hsucc & Hall & Hfinal); [done|done|done|lia|done|].
  rewrite Hb in *. rewrite Hfinal. split; [lia|]. split; [lia|].
  f_equal. lia.
Qed.

Lemma attempts_in_turn_witness :
  Z.of_nat (successes
              (result (book_all [request "s1"; request "s1"; request "s1"])
                 (one_slot 2 0 []))) = 2
  ∧ bookings_at
      (after (book_all [request "s1"; request "s1"; request "s1"])
         (one_slot 2 0 [])) "s1" = Some 2.
Proof.
  destruct (attempts_in_turn_fill_the_slot "s1" 2
              [request "s1"; request "s1"; request "s1"]
              (one_slot 2 0 []) (slot_row "s1" 2 0))
    as (Hsucc & _ & Hfinal);
    [reflexivity | reflexivity | reflexivity | reflexivity | lia
    | repeat constructor | simpl; lia |].
  split; [exact Hsucc | exact Hfinal].
Defined.

(** * Further properties of the store operations *)

(** X1: on a store that answers, [create_time_slot] returns the new row,
    made of the data it was given under a key no row had; reading that
    key back with [get_time_slot] gives the same row, and every row that
    was there before is still read as it was. *)
Theorem created_slot_is_read_back data w :
  healthy w →
  ∃ row : TimeSlot,
    result (db_manager.create_time_slot data) w = Some row
    ∧ slot_data row = data
    ∧ slot_at w (slot_id row) = None
    ∧ result (db_manager.get_time_slot (slot_id row))
        (after (db_manager.create_time_slot data) w) = Some row
    ∧ ∀ key s, slot_at w key = Some s →
        result (db_manager.get_time_slot key)
          (after (db_manager.create_time_slot data) w) = Some s.
Proof.
  intros Hw. open_world w. run.
  assert (tbl !! fresh (dom tbl) = None) as Hfresh
    by apply not_elem_of_dom, is_fresh.
  eexists. split; [reflexivity|]. simpl. split; [done|]. split; [done|].
  split; [by rewrite lookup_insert_eq|].
  intros key s Hs. rewrite lookup_insert_ne; [done|]. congruence.
Qed.

Lemma created_slot_is_read_back_witness :
  ∃ row : TimeSlot,
    result (db_manager.create_time_slot (slot_data (slot_row "s1" 5 0)))
      (one_slot 5 2 []) = Some row
    ∧ slot_at (one_slot 5 2 []) (slot_id row) = None.
Proof.
  destruct (created_slot_is_read_back (slot_data (slot_row "s1" 5 0))
              (one_slot 5 2 [])) as (row & Hrow & _ & Hfresh & _);
    [reflexivity|].
  exists row. split; [exact Hrow | exact Hfresh].
Defined.

(** X2: on a store that answers, an appointment row goes through its
    whole life unharmed: [create_appointment] returns it under a new key,
    [get_appointment] reads it back, [delete_appointment] removes it and
    says so, after which it is not found and the table is the one the
    sequence started from. *)
Theorem appointment_row_life_cycle data w :
  healthy w →
  ∃ a : Appointment,
    result (db_manager.create_appointment data) w = Some a
    ∧ appt_data a = data
    ∧ appointments w !! appt_id a = None
    ∧ result (db_manager.get_appointment (appt_id a))
        (after (db_manager.create_appointment data) w) = Some a
    ∧ result (db_manager.delete_appointment (appt_id a))
        (after (db_manager.create_appointment data) w) = true
    ∧ result (db_manager.get_appointment (appt_id a))
        (after (db_manager.delete_appointment (appt_id a))
           (after (db_manager.create_appointment data) w)) = None
    ∧ appointments
        (after (db_manager.delete_appointment (appt_id a))
           (after (db_manager.create_appointment data) w))
      = appointments w.
Proof.
  intros Hw. open_world w. run.
  assert (apps !! fresh (dom apps) = None) as Hfresh
    by apply not_elem_of_dom, is_fresh.
  eexists. split; [reflexivity|]. simpl.
  rewrite !lookup_insert_eq. simpl. rewrite lookup_delete_eq.
  repeat (split; [done|]). by rewrite delete_insert_id.
Qed.

Lemma appointment_row_life_cycle_witness :
  ∃ a : Appointment,
    result (db_manager.create_appointment
              (appt_data (appointment_row "a1" "confirmed")))
      (booked_world "confirmed") = Some a
    ∧ appointments (booked_world "confirmed") !! appt_id a = None.
Proof.
  destruct (appointment_row_life_cycle
              (appt_data (appointment_row "a1" "confirmed"))
              (booked_world "confirmed")) as (a & Ha & _ & Hfresh & _);
    [reflexivity|].
  exists a. split; [exact Ha | exact Hfresh].
Defined.

(** X3: whatever the store does, [delete_appointment] returns [True]
    exactly when it removed the row: then the row is gone, no other row
    has changed, and a second delete of the same key returns [False].
    When it returns [False] (no such row, or the request raised) the
    table is as it was.  The slots are never touched. *)
Theorem delete_reports_what_it_removed key w :
  (result (db_manager.delete_appointment key) w = true →
   is_Some (appointments w !! key)
   ∧ appointments (after (db_manager.delete_appointment key) w)
     = delete key (appointments w)
   ∧ result (db_manager.delete_appointment key)
       (after (db_manager.delete_appointment key) w) = false)
  ∧ (result (db_manager.delete_appointment key) w = false →
     appointments (after (db_manager.delete_appointment key) w)
     = appointments w)
  ∧ time_slots (after (db_manager.delete_appointment key) w) = time_slots w.
Proof.
  open_world w. run.
  destruct fs as [|[] [|[] fs]]; simpl;
    destruct (apps !! key) as [a|] eqn:Ha; simpl;
    rewrite ?lookup_delete_eq, ?Ha; simpl;
    (split; [intros Hr|split; [intros Hr|]]);
    try discriminate; eauto.
Qed.

(** X4: [update_appointment] on a row that is there, on a store that
    answers, returns the row it stored: the keys of the patch replace the
    old values, [updated_at] is the time of the call whatever the patch
    said, and the key, the booking data and [created_at] stay; the other
    rows and the slots are untouched.  On a key that is not there it
    returns [None] and changes nothing. *)
Theorem update_patches_one_row key patch w :
  healthy w →
  match appointments w !! key with
  | Some a =>
      ∃ a' : Appointment,
        result (db_manager.update_appointment key patch) w = Some a'
        ∧ appointments (after (db_manager.update_appointment key patch) w)
            !! key = Some a'
        ∧ appt_id a' = appt_id a
        ∧ appt_base a' = appt_base a
        ∧ appt_created_at a' = appt_created_at a
        ∧ status a' = get_default (patch_status patch) (status a)
        ∧ get_default (reminder_sent a') false
          = get_default (patch_reminder_sent patch)
              (get_default (reminder_sent a) false)
        ∧ appt_updated_at a' = clock w
  | None =>
      result (db_manager.update_appointment key patch) w = None
      ∧ appointments (after (db_manager.update_appointment key patch) w)
        = appointments w
  end
  ∧ (∀ other, other ≠ key →
       appointments (after (db_manager.update_appointment key patch) w)
         !! other = appointments w !! other)
  ∧ time_slots (after (db_manager.update_appointment key patch) w)
    = time_slots w.
Proof.
  intros Hw. open_world w. run.
  destruct (apps !! key) as [a|] eqn:Ha; simpl.
  - split; [|split; [|done]].
    + eexists. split; [reflexivity|]. rewrite lookup_insert_eq.
      repeat (split; [done|]). split; [|done].
      by destruct (patch_reminder_sent patch).
    + intros other Hne. by rewrite lookup_insert_ne.
  - done.
Qed.

Lemma update_patches_one_row_witness :
  status_at
    (after (db_manager.update_appointment "a1"
              (mkAppointmentPatch (Some "cancelled"%string) None (Some 7)))
       (booked_world "confirmed")) "a1" = Some "cancelled"%string.
Proof.
  destruct (update_patches_one_row "a1"
              (mkAppointmentPatch (Some "cancelled"%string) None (Some 7))
              (booked_world "confirmed")) as (Hrow & _); [reflexivity|].
  change (appointments (booked_world "confirmed") !! "a1"%string)
    with (Some (appointment_row "a1" "confirmed")) in Hrow.
  destruct Hrow as (a' & _ & Hstored & _ & _ & _ & Hstatus & _).
  unfold status_at. rewrite Hstored. simpl. rewrite Hstatus. reflexivity.
Defined.



Lemma by_start_time_total : Total by_start_time.
Proof. intros a b. apply String.leb_total. Qed.

(** X6: [get_time_slots_by_date] never changes a table, and what it
    returns is in ascending order of [start_time]; on a store that
    answers it is exactly the slots stored for that date. *)
Theorem slots_of_a_date_come_sorted date_obj w :
  Sorted by_start_time
    (result (db_manager.get_time_slots_by_date date_obj) w)
  ∧ time_slots (after (db_manager.get_time_slots_by_date date_obj) w)
    = time_slots w
  ∧ appointments (after (db_manager.get_time_slots_by_date date_obj) w)
    = appointments w
  ∧ (healthy w →
     ∀ s : TimeSlot,
       s ∈ result (db_manager.get_time_slots_by_date date_obj) w
       ↔ date s = date_obj ∧ ∃ key, slot_at w key = Some s).
Proof.
  unfold result, after.
  destruct (db_manager.get_time_slots_by_date date_obj w) as [l w1] eqn:E.
  apply get_time_slots_by_date_spec in E as (Hts & Happ & Hl & Hhealthy).
  simpl. split; [|split; [done|split; [done|]]].
  - destruct Hl as [->| ->]; [constructor|].
    apply (@Sorted_merge_sort _ by_start_time _ by_start_time_total).
  - intros Hw s. destruct (Hhealthy Hw) as [_ ->].
    apply elem_of_select_by_date.
Qed.

Lemma slots_of_a_date_come_sorted_witness :
  slot_row "s1" 5 2
  ∈ result (db_manager.get_time_slots_by_date "2025-01-06") (one_slot 5 2 []).
Proof.
  destruct (slots_of_a_date_come_sorted "2025-01-06" (one_slot 5 2 []))
    as (_ & _ & _ & Hexact).
  apply Hexact; [reflexivity|]. split; [reflexivity|].
  exists "s1"%string. reflexivity.
Defined.

Lemma increment_healthy key (s : TimeSlot) w :
  healthy w →
  slot_at w key = Some s →
  result (db_manager.increment_time_slot_bookings key) w = true
  ∧ healthy (after (db_manager.increment_time_slot_bookings key) w)
  ∧ slot_at (after (db_manager.increment_time_slot_bookings key) w) key
    = Some (with_bookings (bookings s + 1) (clock w) s)
  ∧ appointments (after (db_manager.increment_time_slot_bookings key) w)
    = appointments w.
Proof.
  intros Hw Hs. open_world w. unfold bookings. run.
  rewrite Hs. simpl. rewrite Hs. simpl. by rewrite lookup_insert_eq.
Qed.

Lemma decrement_healthy key (s : TimeSlot) w :
  healthy w →
  slot_at w key = Some s →
  result (db_manager.decrement_time_slot_bookings key) w = true
  ∧ healthy (after (db_manager.decrement_time_slot_bookings key) w)
  ∧ slot_at (after (db_manager.decrement_time_slot_bookings key) w) key
    = Some (with_bookings (Z.max 0 (bookings s - 1)) (clock w) s)
  ∧ appointments (after (db_manager.decrement_time_slot_bookings key) w)
    = appointments w.
Proof.
  intros Hw Hs. open_world w. unfold bookings. run.
  rewrite Hs. simpl. rewrite Hs. simpl. by rewrite lookup_insert_eq.
Qed.

Lemma bookings_with_bookings n t s : bookings (with_bookings n t s) = n.
Proof. reflexivity. Qed.

(** X7: on a store that answers, for a slot whose counter is not
    negative, a decrement undoes an increment: after
    [increment_time_slot_bookings] then [decrement_time_slot_bookings]
    the counter is back where it was.  The other order does not undo at
    0: a decrement then an increment from 0 leaves 1. *)
Theorem decrement_undoes_increment key (s : TimeSlot) w :
  healthy w →
  slot_at w key = Some s →
  0 ≤ bookings s →
  bookings_at
    (after (db_manager.decrement_time_slot_bookings key)
       (after (db_manager.increment_time_slot_bookings key) w)) key
  = Some (bookings s)
  ∧ (bookings s = 0 →
     bookings_at
       (after (db_manager.increment_time_slot_bookings key)
          (after (db_manager.decrement_time_slot_bookings key) w)) key
     = Some 1).
Proof.
  intros Hw Hs Hb. unfold bookings_at. split.
  - destruct (increment_healthy key s w Hw Hs) as (_ & Hw1 & Hs1 & _).
    destruct (decrement_healthy key _ _ Hw1 Hs1) as (_ & _ & -> & _).
    simpl. rewrite !bookings_with_bookings. f_equal. lia.
  - intros H0.
    destruct (decrement_healthy key s w Hw Hs) as (_ & Hw1 & Hs1 & _).
    destruct (increment_healthy key _ _ Hw1 Hs1) as (_ & _ & -> & _).
    simpl. rewrite !bookings_with_bookings, H0. done.
Qed.

Lemma decrement_undoes_increment_witness :
  bookings_at
    (after (db_manager.decrement_time_slot_bookings "s1")
       (after (db_manager.increment_time_slot_bookings "s1")
          (one_slot 5 5 []))) "s1" = Some 5.
Proof.
  destruct (decrement_undoes_increment "s1" (slot_row "s1" 5 5)
              (one_slot 5 5 [])) as [Hback _];
    [reflexivity | reflexivity | unfold bookings; simpl; lia |].
  exact Hback.
Defined.

(** * Further properties of booking and cancellation *)

Lemma fresh_appointment_key (apps : gmap string Appointment) :
  apps !! fresh (dom apps) = None.
Proof. apply not_elem_of_dom, is_fresh. Qed.

(** X8: on a store that answers, booking a slot that is below its
    capacity (5 when the row has none) succeeds whatever the e-mail
    service does: the appointment returned carries the request as it
    was, is confirmed, sits in the table under a key no appointment had,
    and the slot counts one booking more. *)
Theorem accepted_booking_is_recorded appointment_data (s : TimeSlot) w :
  healthy w →
  slot_at w (time_slot_id appointment_data) = Some s →
  bookings s < get_default (max_capacity s) 5 →
  ∃ a : Appointment,
    result (crud_handler.create_appointment appointment_data) w = Some a
    ∧ appt_base a = appointment_data
    ∧ status a = "confirmed"%string
    ∧ appointments w !! appt_id a = None
    ∧ appointments (after (crud_handler.create_appointment appointment_data) w)
      = <[appt_id a := a]> (appointments w)
    ∧ bookings_at
        (after (crud_handler.create_appointment appointment_data) w)
        (time_slot_id appointment_data) = Some (bookings s + 1)
    ∧ healthy (after (crud_handler.create_appointment appointment_data) w).
Proof.
  intros Hw Hs Hroom. open_world w.
  unfold crud_handler.create_appointment, bookings in *. run.
  rewrite Hs. simpl. rewrite bool_decide_eq_false_2 by lia.
  simpl. rewrite Hs. simpl. rewrite Hs. simpl.
  pose proof (fresh_appointment_key apps) as Hfresh.
  destruct ms as [|[] ms]; simpl; eexists; (split; [reflexivity|]); simpl;
    rewrite lookup_insert_eq; done.
Qed.

Lemma accepted_booking_is_recorded_witness :
  ∃ a : Appointment,
    result (crud_handler.create_appointment (request "s1"))
      (mkWorld {[ "s1"%string := slot_row "s1" 5 4 ]} ∅ [] [MailRaised]
               100 []) = Some a
    ∧ status a = "confirmed"%string.
Proof.
  destruct (accepted_booking_is_recorded (request "s1") (slot_row "s1" 5 4)
              (mkWorld {[ "s1"%string := slot_row "s1" 5 4 ]} ∅ []
                       [MailRaised] 100 []))
    as (a & Ha & _ & Hst & _);
    [reflexivity | reflexivity | unfold bookings; simpl; lia |].
  exists a. split; [exact Ha | exact Hst].
Defined.

(** X9: whatever the store and the e-mail service do, a booking that is
    refused ([None]) takes no place, and a booking that is accepted takes
    exactly one, on the slot it asked for, and adds exactly its own
    appointment, confirmed, under a key no appointment had.  A refused
    booking leaves the appointments as they were, or with the one row
    whose compensating delete failed; no other appointment is ever
    removed or altered. *)
Theorem booking_takes_a_place_only_when_accepted appointment_data w :
  (result (crud_handler.create_appointment appointment_data) w = None →
   time_slots (after (crud_handler.create_appointment appointment_data) w)
   = time_slots w
   ∧ (appointments
        (after (crud_handler.create_appointment appointment_data) w)
      = appointments w
      ∨ ∃ a : Appointment,
          appointments w !! appt_id a = None
          ∧ appt_base a = appointment_data
          ∧ appointments
              (after (crud_handler.create_appointment appointment_data) w)
            = <[appt_id a := a]> (appointments w)))
  ∧ (∀ a : Appointment,
       result (crud_handler.create_appointment appointment_data) w = Some a →
       counter_moved (λ n, n + 1) (time_slot_id appointment_data) w
         (after (crud_handler.create_appointment appointment_data) w)
       ∧ appt_base a = appointment_data
       ∧ status a = "confirmed"%string
       ∧ appointments w !! appt_id a = None
       ∧ appointments
           (after (crud_handler.create_appointment appointment_data) w)
         = <[appt_id a := a]> (appointments w)).
Proof.
  unfold counter_moved. open_world w.
  unfold crud_handler.create_appointment. run.
  pose proof (fresh_appointment_key apps) as Hfresh.
  split.
  - split_cases; simplify_eq; intros Hr; try discriminate;
      try (match goal with
           | H : <[_:=_]> _ !! _ = None |- _ =>
               rewrite lookup_insert_eq in H; discriminate
           end);
      rewrite ?delete_insert_id by done; simpl;
      (split; [done|]); try (by left).
    all: right; eexists (mkAppointment _ _); simpl;
      (split; [|split; [|reflexivity]]); [exact Hfresh|reflexivity].
  - intros a.
    split_cases; simplify_eq; intros [= <-]; simpl;
      (split; [eexists _, _; split; reflexivity|]); done.
Qed.

(** X10: whatever the store does, a booking on a slot that is not in the
    store, or that is at or over its capacity (5 when the row has none),
    returns [None] and changes neither table. *)
Theorem booking_refused_without_a_trace appointment_data w :
  (slot_at w (time_slot_id appointment_data) = None
   ∨ ∃ s : TimeSlot,
       slot_at w (time_slot_id appointment_data) = Some s
       ∧ get_default (max_capacity s) 5 ≤ bookings s) →
  result (crud_handler.create_appointment appointment_data) w = None
  ∧ time_slots (after (crud_handler.create_appointment appointment_data) w)
    = time_slots w
  ∧ appointments (after (crud_handler.create_appointment appointment_data) w)
    = appointments w.
Proof.
  intros Hslot. open_world w.
  unfold crud_handler.create_appointment, bookings in *. run.
  destruct fs as [|[] fs]; simpl; try done;
    destruct Hslot as [->|(s & -> & Hfull)]; simpl; try done;
    rewrite bool_decide_eq_true_2 by lia; done.
Qed.

Lemma booking_refused_without_a_trace_witness :
  result (crud_handler.create_appointment (request "s2")) (one_slot 5 2 [])
  = None.
Proof.
  destruct (booking_refused_without_a_trace (request "s2") (one_slot 5 2 []))
    as [Hnone _]; [left; reflexivity|].
  exact Hnone.
Defined.

Lemma cancel_appointment_healthy appointment_id (a : Appointment) w :
  healthy w →
  appointments w !! appointment_id = Some a →
  healthy (after (crud_handler.cancel_appointment appointment_id) w)
  ∧ appointments (after (crud_handler.cancel_appointment appointment_id) w)
    = <[appointment_id :=
          apply_patch (mkAppointmentPatch (Some "cancelled"%string) None
                                          (Some (clock w + 1))) a]>
        (appointments w)
  ∧ match slot_at w (time_slot_id a) with
    | Some s =>
        result (crud_handler.cancel_appointment appointment_id) w = true
        ∧ time_slots (after (crud_handler.cancel_appointment appointment_id) w)
          = <[time_slot_id a :=
                with_bookings (Z.max 0 (bookings s - 1)) (clock w + 1 + 1) s]>
              (time_slots w)
    | None =>
        result (crud_handler.cancel_appointment appointment_id) w = false
        ∧ time_slots (after (crud_handler.cancel_appointment appointment_id) w)
          = time_slots w
    end.
Proof.
  intros Hw Ha. open_world w.
  unfold crud_handler.cancel_appointment, bookings. run.
  rewrite Ha. simpl. rewrite Ha. simpl.
  destruct (tbl !! time_slot_id a) as [s|] eqn:Hs; simpl; [|done].
  rewrite Hs. simpl. done.
Qed.

(** X11: on a store that answers, cancelling an appointment whose slot
    is in the store returns [True]: the appointment is kept with status
    "cancelled", its booking data, [created_at] and reminder flag as
    they were, the slot counts one booking less (never below 0), and no
    other appointment or slot changes. *)
Theorem cancellation_releases_one_place appointment_id (a : Appointment)
    (s : TimeSlot) w :
  healthy w →
  appointments w !! appointment_id = Some a →
  slot_at w (time_slot_id a) = Some s →
  result (crud_handler.cancel_appointment appointment_id) w = true
  ∧ bookings_at (after (crud_handler.cancel_appointment appointment_id) w)
      (time_slot_id a) = Some (Z.max 0 (bookings s - 1))
  ∧ (∃ a' : Appointment,
       appointments
         (after (crud_handler.cancel_appointment appointment_id) w)
         !! appointment_id = Some a'
       ∧ status a' = "cancelled"%string
       ∧ appt_base a' = appt_base a
       ∧ appt_created_at a' = appt_created_at a
       ∧ reminder_sent a' = reminder_sent a)
  ∧ (∀ other, other ≠ appointment_id →
       appointments
         (after (crud_handler.cancel_appointment appointment_id) w) !! other
       = appointments w !! other)
  ∧ (∀ other, other ≠ time_slot_id a →
       slot_at (after (crud_handler.cancel_appointment appointment_id) w)
         other = slot_at w other).
Proof.
  intros Hw Ha Hs.
  destruct (cancel_appointment_healthy appointment_id a w Hw Ha)
    as (_ & Happ & Hslots).
  rewrite Hs in Hslots. destruct Hslots as [Hr Hts].
  unfold bookings_at, slot_at. rewrite Happ, Hts.
  split; [done|]. split; [by rewrite lookup_insert_eq|]. split.
  - eexists. rewrite lookup_insert_eq. split; [reflexivity|]. done.
  - split; intros other Hne; by rewrite lookup_insert_ne.
Qed.

Lemma cancellation_releases_one_place_witness :
  result (crud_handler.cancel_appointment "a1") (booked_world "confirmed")
  = true
  ∧ bookings_at
      (after (crud_handler.cancel_appointment "a1")
         (booked_world "confirmed")) "s1" = Some 1.
Proof.
  destruct (cancellation_releases_one_place "a1"
              (appointment_row "a1" "confirmed") (slot_row "s1" 5 2)
              (booked_world "confirmed")) as (Hr & Hb & _);
    [reflexivity | reflexivity | reflexivity |].
  split; [exact Hr | exact Hb].
Defined.

(** X12: on a store that answers, cancelling an appointment whose slot
    row is not in the store returns [False], and yet the appointment has
    been marked "cancelled": the status update is not undone when the
    decrement finds no slot. *)
Theorem cancellation_without_slot_still_marks appointment_id
    (a : Appointment) w :
  healthy w →
  appointments w !! appointment_id = Some a →
  slot_at w (time_slot_id a) = None →
  result (crud_handler.cancel_appointment appointment_id) w = false
  ∧ status_at (after (crud_handler.cancel_appointment appointment_id) w)
      appointment_id = Some "cancelled"%string
  ∧ time_slots (after (crud_handler.cancel_appointment appointment_id) w)
    = time_slots w.
Proof.
  intros Hw Ha Hs.
  destruct (cancel_appointment_healthy appointment_id a w Hw Ha)
    as (_ & Happ & Hslots).
  rewrite Hs in Hslots. destruct Hslots as [Hr Hts].
  unfold status_at. rewrite Happ, lookup_insert_eq. done.
Qed.

Lemma cancellation_without_slot_witness :
  result (crud_handler.cancel_appointment "a1")
    (mkWorld ∅ {[ "a1"%string := appointment_row "a1" "confirmed" ]}
             [] [] 100 []) = false
  ∧ status_at
      (after (crud_handler.cancel_appointment "a1")
         (mkWorld ∅ {[ "a1"%string := appointment_row "a1" "confirmed" ]}
                  [] [] 100 [])) "a1" = Some "cancelled"%string.
Proof.
  destruct (cancellation_without_slot_still_marks "a1"
              (appointment_row "a1" "confirmed")
              (mkWorld ∅ {[ "a1"%string := appointment_row "a1" "confirmed" ]}
                       [] [] 100 [])) as (Hr & Hst & _);
    [reflexivity | reflexivity | reflexivity |].
  split; [exact Hr | exact Hst].
Defined.

Lemma create_appointment_accepted appointment_data (s : TimeSlot) w :
  healthy w →
  slot_at w (time_slot_id appointment_data) = Some s →
  bookings s < get_default (max_capacity s) 5 →
  ∃ a : Appointment,
    result (crud_handler.create_appointment appointment_data) w = Some a
    ∧ appt_base a = appointment_data
    ∧ appointments (after (crud_handler.create_appointment appointment_data) w)
        !! appt_id a = Some a
    ∧ healthy (after (crud_handler.create_appointment appointment_data) w)
    ∧ slot_at (after (crud_handler.create_appointment appointment_data) w)
        (time_slot_id appointment_data)
      = Some (with_bookings (bookings s + 1) (clock w + 1) s).
Proof.
  intros Hw Hs Hroom. open_world w.
  unfold crud_handler.create_appointment, bookings in *. run.
  rewrite Hs. simpl. rewrite bool_decide_eq_false_2 by lia.
  simpl. rewrite Hs. simpl. rewrite Hs. simpl.
  destruct ms as [|[] ms]; simpl; eexists; (split; [reflexivity|]); simpl;
    rewrite !lookup_insert_eq; done.
Qed.

(** X13: on a store that answers, booking a slot that has room and then
    cancelling the appointment just returned puts the slot's counter back
    where it was (for a counter that was not negative); the appointment
    stays in the store, marked "cancelled". *)
Theorem cancelling_a_booking_gives_the_place_back appointment_data
    (s : TimeSlot) w :
  healthy w →
  slot_at w (time_slot_id appointment_data) = Some s →
  0 ≤ bookings s < get_default (max_capacity s) 5 →
  ∃ a : Appointment,
    result (crud_handler.create_appointment appointment_data) w = Some a
    ∧ result (crud_handler.cancel_appointment (appt_id a))
        (after (crud_handler.create_appointment appointment_data) w) = true
    ∧ bookings_at
        (after (crud_handler.cancel_appointment (appt_id a))
           (after (crud_handler.create_appointment appointment_data) w))
        (time_slot_id appointment_data) = Some (bookings s)
    ∧ status_at
        (after (crud_handler.cancel_appointment (appt_id a))
           (after (crud_handler.create_appointment appointment_data) w))
        (appt_id a) = Some "cancelled"%string.
Proof.
  intros Hw Hs [Hpos Hroom].
  destruct (create_appointment_accepted appointment_data s w Hw Hs Hroom)
    as (a & Hr & Hbase & Hstored & Hw1 & Hs1).
  exists a. split; [done|].
  destruct (cancel_appointment_healthy (appt_id a) a _ Hw1 Hstored)
    as (_ & Happ & Hslots).
  assert (time_slot_id a = time_slot_id appointment_data) as Hkey
    by (by rewrite Hbase).
  rewrite Hkey, Hs1 in Hslots. destruct Hslots as [Hr2 Hts].
  split; [done|]. unfold bookings_at, status_at, slot_at.
  rewrite Hts, Happ, !lookup_insert_eq. simpl.
  rewrite !bookings_with_bookings. split; [f_equal; lia|done].
Qed.

Lemma cancelling_a_booking_witness :
  ∃ a : Appointment,
    result (crud_handler.create_appointment (request "s1"))
      (one_slot 5 2 []) = Some a
    ∧ bookings_at
        (after (crud_handler.cancel_appointment (appt_id a))
           (after (crud_handler.create_appointment (request "s1"))
              (one_slot 5 2 []))) "s1" = Some 2.
Proof.
  destruct (cancelling_a_booking_gives_the_place_back (request "s1")
              (slot_row "s1" 5 2) (one_slot 5 2 []))
    as (a & Ha & _ & Hb & _);
    [reflexivity | reflexivity | unfold bookings; simpl; lia |].
  exists a. split; [exact Ha | exact Hb].
Defined.

(** X14: on a store that answers, a slot at its capacity (of at least 1)
    refuses a booking; once an appointment of that slot has been
    cancelled, the same booking is accepted. *)
Theorem cancellation_reopens_a_full_slot appointment_id (a : Appointment)
    appointment_data (s : TimeSlot) cap w :
  healthy w →
  appointments w !! appointment_id = Some a →
  time_slot_id a = time_slot_id appointment_data →
  slot_at w (time_slot_id appointment_data) = Some s →
  max_capacity s = Some cap →
  bookings s = cap →
  1 ≤ cap →
  booked (result (crud_handler.create_appointment appointment_data) w)
  = false
  ∧ booked
      (result (crud_handler.create_appointment appointment_data)
         (after (crud_handler.cancel_appointment appointment_id) w))
    = true.
Proof.
  intros Hw Ha Hkey Hs Hcap Hb Hpos. split.
  - destruct (create_appointment_healthy appointment_data s w Hw Hs)
      as [_ Hone].
    rewrite Hcap in Hone. simpl in Hone.
    rewrite bool_decide_eq_false_2 in Hone by lia. by destruct Hone.
  - destruct (cancel_appointment_healthy appointment_id a w Hw Ha)
      as (Hw1 & _ & Hslots).
    rewrite Hkey, Hs in Hslots. destruct Hslots as [_ Hts].
    assert (slot_at (after (crud_handler.cancel_appointment appointment_id) w)
              (time_slot_id appointment_data)
            = Some (with_bookings (Z.max 0 (bookings s - 1))
                                  (clock w + 1 + 1) s)) as Hs1
      by (unfold slot_at; by rewrite Hts, lookup_insert_eq).
    destruct (create_appointment_healthy appointment_data _ _ Hw1 Hs1)
      as [_ Hone].
    rewrite bookings_with_bookings in Hone.
    change (max_capacity (with_bookings (Z.max 0 (bookings s - 1))
                            (clock w + 1 + 1) s))
      with (max_capacity s) in Hone.
    rewrite Hcap in Hone. simpl in Hone.
    rewrite bool_decide_eq_true_2 in Hone by lia. by destruct Hone.
Qed.

Lemma cancellation_reopens_witness :
  booked (result (crud_handler.create_appointment (request "s1"))
            (mkWorld {[ "s1"%string := slot_row "s1" 2 2 ]}
               {[ "a1"%string := appointment_row "a1" "confirmed" ]}
               [] [] 100 [])) = false
  ∧ booked
      (result (crud_handler.create_appointment (request "s1"))
         (after (crud_handler.cancel_appointment "a1")
            (mkWorld {[ "s1"%string := slot_row "s1" 2 2 ]}
               {[ "a1"%string := appointment_row "a1" "confirmed" ]}
               [] [] 100 []))) = true.
Proof.
  apply (cancellation_reopens_a_full_slot "a1"
           (appointment_row "a1" "confirmed") (request "s1")
           (slot_row "s1" 2 2) 2);
    [reflexivity | reflexivity | reflexivity | reflexivity | reflexivity
    | reflexivity | lia].
Defined.

(** * Further properties of slot generation *)

(** Whether the loop ends does not depend on the store. *)
Lemma generate_loop_ends settings date_obj duration until fuel :
  ∀ current_time slots w,
    result (db_manager.generate_loop settings fuel date_obj duration until
              current_time slots) w = None
    ↔ slot_starts fuel duration until current_time = None.
Proof.
  unfold result.
  induction fuel as [|fuel IH]; intros current_time slots w; simpl.
  - by case_bool_decide.
  - case_bool_decide; [|done]. unfold bind at 1.
    destruct (if bool_decide (current_time + duration ≤ until)
              then db_manager.emit_slot settings date_obj current_time
                     (current_time + duration) slots
              else ret slots) as [slots' w1] eqn:E.
    destruct ((if bool_decide (current_time + duration ≤ until)
               then db_manager.emit_slot settings date_obj current_time
                      (current_time + duration) slots
               else ret slots) w) as [slots'' w2] eqn:E2.
    rewrite IH.
    by destruct (slot_starts fuel duration until (current_time + duration)).
Qed.

(** X15: on a store that answers, for a date without slots before the
    last day of the calendar, valid working hours and a positive step,
    generation returns exactly [(end - start) // duration_minutes] slots
    (none when the hours are closed), the [k]-th starting [k] steps
    after the opening hour; the loop needs no more rounds than there are
    minutes between the two hours.  (On 9999-12-31 a step that passes
    midnight raises [OverflowError], and the method returns the empty
    list after it has stored the slots.) *)
Theorem generation_fills_the_working_hours settings fuel date_obj duration w
    from until :
  healthy w →
  date_obj ≠ isoformat date_max →
  result (db_manager.get_time_slots_by_date date_obj) w = [] →
  working_hours settings = Some (from, until) →
  0 < duration →
  (Z.to_nat (until - from) ≤ fuel)%nat →
  ∃ slots,
    result (db_manager.generate_time_slots_for_date
              settings fuel date_obj duration) w = Some slots
    ∧ length slots = Z.to_nat ((until - from) / duration)
    ∧ (λ s : TimeSlot, start_time s) <$> slots
      = (λ k : nat, strftime_HM (from + Z.of_nat k * duration))
          <$> seq 0 (Z.to_nat ((until - from) / duration)).
Proof.
  intros Hw _ Hnone Hhours Hd Hfuel. unfold result in *.
  destruct (db_manager.generate_time_slots_for_date _ _ _ _ w)
    as [r w'] eqn:E. simpl.
  apply generate_spec in E as (_ & _ & [(_ & _ & Hsome & _)|(_ & Hgen)]);
    [done|].
  destruct Hgen as (new & _ & _ & _ & Hhealthy). specialize (Hhealthy Hw).
  rewrite Hhours, (slot_starts_closed_form duration until Hd fuel from Hfuel)
    in Hhealthy.
  destruct Hhealthy as [-> Hstarts]. exists new. split; [done|].
  rewrite <- list_fmap_compose in Hstarts. split; [|exact Hstarts].
  apply (f_equal length) in Hstarts.
  by rewrite !length_fmap, length_seq in Hstarts.
Qed.

Lemma generation_fills_the_working_hours_witness :
  ∃ slots,
    result (db_manager.generate_time_slots_for_date
              default_settings 540 "2025-01-06" 45)
      (mkWorld ∅ ∅ [] [] 0 []) = Some slots
    ∧ length slots = 12%nat.
Proof.
  destruct (generation_fills_the_working_hours default_settings 540
              "2025-01-06" 45 (mkWorld ∅ ∅ [] [] 0 []) 540 1080)
    as (slots & Hr & Hlen & _);
    [reflexivity | by vm_compute | reflexivity | reflexivity | lia
    | simpl; lia |].
  exists slots. split; [exact Hr | exact Hlen].
Defined.

(** X16: with a positive step the generation loop always ends, whatever
    the settings and whatever the store does: 1439 rounds (the minutes
    of a day) are enough for [generate_time_slots_for_date] to return. *)
Theorem generation_ends_for_a_positive_step settings fuel date_obj duration w :
  0 < duration →
  (1439 ≤ fuel)%nat →
  result (db_manager.generate_time_slots_for_date
            settings fuel date_obj duration) w ≠ None.
Proof.
  intros Hd Hfuel. unfold result, db_manager.generate_time_slots_for_date.
  unfold bind at 1.
  destruct (db_manager.get_time_slots_by_date date_obj w) as [[|s l] w1];
    [|by run].
  destruct (working_hours settings) as [[from until]|] eqn:Hhours; [|by run].
  apply working_hours_bounds in Hhours. unfold bind at 1.
  destruct (db_manager.generate_loop _ _ _ _ _ _ _ w1) as [r1 w2] eqn:E.
  assert (r1 ≠ None) as Hr1.
  { intros ->.
    pose proof (generate_loop_ends settings date_obj duration until fuel
                  from [] w1) as [Hnone _].
    unfold result in Hnone. rewrite E in Hnone. specialize (Hnone eq_refl).
    rewrite slot_starts_closed_form in Hnone by lia. done. }
  destruct r1; [by run|done].
Qed.

Lemma generation_ends_witness :
  result (db_manager.generate_time_slots_for_date
            default_settings 1439 "2025-01-06" 1)
    (mkWorld ∅ ∅ [true; true; false] [] 0 []) ≠ None.
Proof.
  apply (generation_ends_for_a_positive_step default_settings 1439
           "2025-01-06" 1); lia.
Defined.

Lemma zero_step_loop settings date_obj until current_time :
  current_time < until →
  ∀ fuel slots w r w',
    healthy w →
    db_manager.generate_loop settings fuel date_obj 0 until current_time
      slots w = (r, w') →
    r = None
    ∧ ∃ new,
        extends (time_slots w) new (time_slots w')
        ∧ length new = fuel
        ∧ Forall (λ s : TimeSlot,
                    date s = date_obj ∧ start_time s = end_time s) new.
Proof.
  intros Hlt. induction fuel as [|fuel IH]; intros slots w r w' Hw; simpl;
    rewrite bool_decide_eq_true_2 by done.
  - intros [= <- <-]. split; [done|]. exists [].
    split; [apply extends_nil|]. done.
  - rewrite Z.add_0_r, bool_decide_eq_true_2 by lia. unfold bind at 1.
    destruct (db_manager.emit_slot _ _ _ _ _ w) as [l1 w1] eqn:E1.
    intros Hloop.
    apply emit_slot_spec in E1 as (new1 & -> & Hext1 & _ & Hnew1 & Hh1).
    destruct (Hh1 Hw) as [Hw1 Hlen1].
    apply IH in Hloop as (-> & new2 & Hext2 & Hlen2 & Hnew2); [|done].
    split; [done|]. exists (new1 ++ new2).
    split; [by eapply extends_app|].
    split; [rewrite length_app; lia|].
    apply Forall_app. split; [|done].
    eapply Forall_impl; [exact Hnew1|].
    intros s (? & -> & -> & _). done.
Qed.

(** X17: with a step of 0 minutes and open working hours the loop of
    [generate_time_slots_for_date] never ends: it has not returned after
    any number of rounds, and on a store that answers each round has
    stored one more slot of zero length for the date. *)
Theorem zero_step_generation_never_ends settings fuel date_obj w from until :
  result (db_manager.get_time_slots_by_date date_obj) w = [] →
  working_hours settings = Some (from, until) →
  from < until →
  result (db_manager.generate_time_slots_for_date settings fuel date_obj 0) w
  = None
  ∧ (healthy w →
     ∃ new,
       length new = fuel
       ∧ NoDup new
       ∧ Forall (λ s : TimeSlot,
                   slot_at w (slot_id s) = None
                   ∧ slot_at
                       (after (db_manager.generate_time_slots_for_date
                                 settings fuel date_obj 0) w)
                       (slot_id s) = Some s
                   ∧ date s = date_obj
                   ∧ start_time s = end_time s) new).
Proof.
  intros Hnone Hhours Hlt.
  destruct (db_manager.get_time_slots_by_date date_obj w) as [l w1] eqn:E1.
  unfold result in Hnone. rewrite E1 in Hnone. simpl in Hnone. subst l.
  destruct (db_manager.generate_loop settings fuel date_obj 0 until from []
              w1) as [r1 w2] eqn:E2.
  assert (slot_starts fuel 0 until from = None) as Hstarts.
  { clear -Hlt. revert from Hlt.
    induction fuel as [|fuel IH]; intros from Hlt; simpl;
      rewrite bool_decide_eq_true_2 by done; [done|].
    rewrite Z.add_0_r. by rewrite IH. }
  assert (r1 = None) as ->.
  { pose proof (generate_loop_ends settings date_obj 0 until fuel from [] w1)
      as [_ Hends].
    unfold result in Hends. rewrite E2 in Hends. by apply Hends. }
  assert (db_manager.generate_time_slots_for_date settings fuel date_obj 0 w
          = (None, w2)) as Hgen.
  { unfold db_manager.generate_time_slots_for_date, bind at 1.
    rewrite E1, Hhours. unfold bind at 1. by rewrite E2. }
  unfold result, after. rewrite Hgen. simpl. split; [done|].
  apply get_time_slots_by_date_spec in E1 as (Hts1 & _ & _ & Hh1).
  intros Hw. destruct (Hh1 Hw) as [Hw1 _].
  destruct (zero_step_loop settings date_obj until from Hlt fuel [] w1 _ w2
              Hw1 E2) as (_ & new & Hext & Hlen & Hnew).
  exists new. split; [done|].
  destruct Hext as (_ & Hstored & _ & Hnodup). split; [done|].
  apply Forall_forall. intros s Hs. rewrite Forall_forall in Hnew.
  destruct (Hstored s Hs) as [Hin Hfresh]. destruct (Hnew s Hs).
  unfold slot_at. rewrite <- Hts1. done.
Qed.

Lemma zero_step_generation_witness :
  result (db_manager.generate_time_slots_for_date
            default_settings 3 "2025-01-06" 0) (mkWorld ∅ ∅ [] [] 0 [])
  = None.
Proof.
  destruct (zero_step_generation_never_ends default_settings 3 "2025-01-06"
              (mkWorld ∅ ∅ [] [] 0 []) 540 1080) as [Hnone _];
    [reflexivity | reflexivity | lia |].
  exact Hnone.
Defined.

(** A setting the parse lines raise on gives no working hours. *)
Lemma unreadable_no_parse setting :
  unreadable setting →
  match parse_hours setting with
  | Some (h, m) => combine h m = None
  | None => True
  end.
Proof.
  intros [Hparts|(h & m & -> & Hrange)]; [|done].
  unfold parse_hours.
  by destruct (split_colon setting) as [|a [|b [|c l]]].
Qed.

Lemma unreadable_start_no_hours settings :
  unreadable (WORKING_HOURS_START settings) → working_hours settings = None.
Proof.
  intros Hbad%unreadable_no_parse. unfold working_hours.
  destruct (parse_hours (WORKING_HOURS_START settings)) as [[sh sm]|];
    [|done].
  rewrite Hbad. by repeat case_match.
Qed.

Lemma unreadable_end_no_hours settings :
  unreadable (WORKING_HOURS_END settings) → working_hours settings = None.
Proof.
  intros Hbad%unreadable_no_parse. unfold working_hours.
  destruct (parse_hours (WORKING_HOURS_START settings)) as [[sh sm]|];
    [|done].
  destruct (parse_hours (WORKING_HOURS_END settings)) as [[eh em]|]; [|done].
  rewrite Hbad. by repeat case_match.
Qed.

(** X18: for a date without slots, when a working-hours setting does
    not split into two fields at the colon or has an hour or a minute
    out of range (the "Parse working hours" lines raise), or when the
    closing hour is not after the opening hour,
    [generate_time_slots_for_date] returns the empty list and creates
    nothing, whatever the step and the store. *)
Theorem closed_hours_generate_nothing settings fuel date_obj duration w :
  result (db_manager.get_time_slots_by_date date_obj) w = [] →
  unreadable (WORKING_HOURS_START settings)
  ∨ unreadable (WORKING_HOURS_END settings)
  ∨ (∃ from until,
       working_hours settings = Some (from, until) ∧ until ≤ from) →
  result (db_manager.generate_time_slots_for_date
            settings fuel date_obj duration) w = Some []
  ∧ time_slots (after (db_manager.generate_time_slots_for_date
                         settings fuel date_obj duration) w)
    = time_slots w
  ∧ appointments (after (db_manager.generate_time_slots_for_date
                           settings fuel date_obj duration) w)
    = appointments w.
Proof.
  intros Hnone Hwhy.
  assert (match working_hours settings with
          | Some (from, until) => until ≤ from
          | None => True
          end) as Hclosed.
  { destruct Hwhy as [Hbad|[Hbad|(from & until & -> & Hle)]]; [| |done].
    - by rewrite (unreadable_start_no_hours settings Hbad).
    - by rewrite (unreadable_end_no_hours settings Hbad). }
  clear Hwhy.
  destruct (db_manager.get_time_slots_by_date date_obj w) as [l w1] eqn:E1.
  unfold result in Hnone. rewrite E1 in Hnone. simpl in Hnone. subst l.
  assert (∃ w', db_manager.generate_time_slots_for_date
                  settings fuel date_obj duration w = (Some [], w')
                ∧ time_slots w' = time_slots w1
                ∧ appointments w' = appointments w1) as (w' & Hgen & Hts & Ha).
  { unfold db_manager.generate_time_slots_for_date, bind at 1. rewrite E1.
    destruct (working_hours settings) as [[from until]|].
    - assert (db_manager.generate_loop settings fuel date_obj duration until
                from [] w1 = (Some [], w1)) as Hloop.
      { destruct fuel; simpl; by rewrite bool_decide_eq_false_2 by lia. }
      unfold bind at 1. rewrite Hloop. eexists. by run.
    - eexists. by run. }
  apply get_time_slots_by_date_spec in E1 as (Hts1 & Happ1 & _ & _).
  unfold result, after. rewrite Hgen. simpl. split; [done|]. split; congruence.
Qed.

Lemma closed_hours_witness :
  result (db_manager.generate_time_slots_for_date
            (mkSettings 5 24 "9h" "18:00" false 60) 10 "2025-01-06" 60)
    (mkWorld ∅ ∅ [] [] 0 []) = Some []
  ∧ result (db_manager.generate_time_slots_for_date
              (mkSettings 5 24 "09:00" "24:00" false 60) 10 "2025-01-06" 60)
      (mkWorld ∅ ∅ [] [] 0 []) = Some [].
Proof.
  split.
  - destruct (closed_hours_generate_nothing
                (mkSettings 5 24 "9h" "18:00" false 60) 10 "2025-01-06" 60
                (mkWorld ∅ ∅ [] [] 0 [])) as [Hr _];
      [reflexivity | left; left; by vm_compute |].
    exact Hr.
  - destruct (closed_hours_generate_nothing
                (mkSettings 5 24 "09:00" "24:00" false 60) 10 "2025-01-06" 60
                (mkWorld ∅ ∅ [] [] 0 [])) as [Hr _];
      [reflexivity
      | right; left; right; exists 24, 0; split; reflexivity |].
    exact Hr.
Defined.

(** X19: the text [strftime('%H:%M')] gives for an instant of the day is
    read back to that instant by the code that parses the working-hours
    settings: for every valid hour and minute, formatting
    [datetime.combine(date, time(h, m))] and parsing the result gives
    [h] and [m] again, and so the same instant. *)
Theorem formatted_time_reads_back h m t :
  combine h m = Some t →
  parse_hours (strftime_HM t) = Some (h, m)
  ∧ 0 ≤ t < 1440
  ∧ t = 60 * h + m.
Proof.
  unfold combine. case_match; [|done]. intros [= <-].
  repeat match goal with
         | H : _ && _ = true |- _ => apply andb_prop in H as [? ?]
         end.
  split; [|lia].
  pose proof strftime_reads_back_all as Hall.
  rewrite forallb_forall in Hall.
  specialize (Hall (60 * h + m)).
  rewrite <- list_elem_of_In, elem_of_seqZ in Hall.
  apply bool_decide_eq_true in Hall; [|lia]. rewrite Hall.
  f_equal. f_equal.
  - rewrite Z.mul_comm, Z.div_add_l by lia. rewrite Z.div_small; lia.
  - rewrite Z.mul_comm, Z.add_comm, Z.mod_add by lia.
    apply Z.mod_small. lia.
Qed.

Lemma formatted_time_reads_back_witness :
  parse_hours (strftime_HM 1035) = Some (17, 15).
Proof.
  destruct (formatted_time_reads_back 17 15 1035) as (Hparse & _ & _);
    [reflexivity|].
  exact Hparse.
Defined.

(** * Further properties of the reminder and of the routes *)

(** X20: when the e-mail call returns [True] and the store answers,
    [_send_reminder] sets [reminder_sent] on the stored appointment and
    leaves its status, the other appointments and the slots alone; what
    it logs is the error record of its [except] clause, never the
    "Reminder sent" line, because [await] is applied to the result of
    the plain function [update_appointment]. *)
Theorem sent_reminder_is_flagged_and_logged_as_error
    (appointment stored : Appointment) w :
  healthy w →
  result send_mail w = MailSent →
  appointments w !! appt_id appointment = Some stored →
  reminder_at (after (scheduler._send_reminder appointment) w)
    (appt_id appointment) = Some true
  ∧ status_at (after (scheduler._send_reminder appointment) w)
      (appt_id appointment) = Some (status stored)
  ∧ log (after (scheduler._send_reminder appointment) w)
    = log w ++ [(ERROR, "Error sending reminder"%string)]
  ∧ time_slots (after (scheduler._send_reminder appointment) w)
    = time_slots w
  ∧ (∀ other, other ≠ appt_id appointment →
       appointments (after (scheduler._send_reminder appointment) w)
         !! other = appointments w !! other).
Proof.
  intros Hw Hmail Hstored. open_world w.
  unfold scheduler._send_reminder, reminder_at, status_at in *. revert Hmail.
  run. destruct ms as [|[] ms]; simpl; try done; intros _;
    rewrite Hstored; simpl; rewrite lookup_insert_eq; simpl;
    (repeat (split; [done|])); intros other Hne;
    by rewrite lookup_insert_ne.
Qed.

Lemma sent_reminder_witness :
  reminder_at
    (after (scheduler._send_reminder (appointment_row "a1" "confirmed"))
       (booked_world "confirmed")) "a1" = Some true
  ∧ log (after (scheduler._send_reminder (appointment_row "a1" "confirmed"))
           (booked_world "confirmed"))
    = [(ERROR, "Error sending reminder"%string)].
Proof.
  destruct (sent_reminder_is_flagged_and_logged_as_error
              (appointment_row "a1" "confirmed")
              (appointment_row "a1" "confirmed") (booked_world "confirmed"))
    as (Hflag & _ & Hlog & _); [reflexivity | reflexivity | reflexivity |].
  split; [exact Hflag | exact Hlog].
Defined.

(** X21: the route that creates an appointment never answers 400.  It
    answers 200 with the appointment when [create_appointment] returned
    one; when it returned [None] the 400 "Time slot may be full" raised
    inside the [try] is caught by the route's own [except Exception] and
    the client is answered 500.  The route adds no effect of its own. *)
Theorem create_route_answers_200_or_500 appointment w :
  answered (result (appointments_router.create_appointment appointment) w)
  ≠ 400
  ∧ (∀ a,
       result (crud_handler.create_appointment appointment) w = Some a →
       result (appointments_router.create_appointment appointment) w
       = inr a)
  ∧ (result (crud_handler.create_appointment appointment) w = None →
     result (appointments_router.create_appointment appointment) w
     = inl (HTTPExceptionStr 500 "Error creating appointment: "
              (HTTPException 400
                 "Failed to create appointment. Time slot may be full."))
     ∧ answered
         (result (appointments_router.create_appointment appointment) w)
       = 500)
  ∧ after (appointments_router.create_appointment appointment) w
    = after (crud_handler.create_appointment appointment) w.
Proof.
  unfold appointments_router.create_appointment, result, after, bind, ret.
  destruct (crud_handler.create_appointment appointment w) as [[a|] w'];
    simpl; repeat split; intros; simplify_eq; done.
Qed.

(** X22: the route that cancels an appointment never answers 404.  When
    [cancel_appointment] returned [False] (no such appointment, or a
    store failure) the 404 raised inside the [try] is caught by the
    route's own [except Exception] and the client is answered 500; it
    answers 200 exactly when [cancel_appointment] returned [True]. *)
Theorem cancel_route_answers_200_or_500 appointment_id w :
  answered (result (appointments_router.cancel_appointment appointment_id) w)
  ≠ 404
  ∧ (answered
       (result (appointments_router.cancel_appointment appointment_id) w)
     = 200
     ↔ result (crud_handler.cancel_appointment appointment_id) w = true)
  ∧ (result (crud_handler.cancel_appointment appointment_id) w = false →
     result (appointments_router.cancel_appointment appointment_id) w
     = inl (HTTPExceptionStr 500 "Error cancelling appointment: "
              (HTTPException 404
                 "Appointment not found or already cancelled")))
  ∧ (appointments w !! appointment_id = None →
     answered
       (result (appointments_router.cancel_appointment appointment_id) w)
     = 500).
Proof.
  pose proof (cancel_absent_appointment appointment_id w) as Habsent.
  revert Habsent.
  unfold appointments_router.cancel_appointment, result, after, bind, ret.
  destruct (crud_handler.cancel_appointment appointment_id w) as [[] w'];
    simpl; intros Habsent; repeat split; intros; simplify_eq; try done.
  by destruct (Habsent ltac:(done)).
Qed.

(** X23: the routes that read one appointment and that send a reminder
    for one appointment answer 500 for every appointment id and every
    store: [await] is applied to what the plain function
    [db_manager.get_appointment] returned.  Neither changes a table, and
    the reminder route never calls the e-mail service. *)
Theorem awaited_plain_function_routes_answer_500 appointment_id w :
  result (appointments_router.get_appointment appointment_id) w
  = inl (HTTPExceptionStr 500 "Error getting appointment: " TypeError)
  ∧ result (appointments_router.send_appointment_reminder appointment_id) w
    = inl (HTTPExceptionStr 500 "Error sending reminder: " TypeError)
  ∧ appointments
      (after (appointments_router.get_appointment appointment_id) w)
    = appointments w
  ∧ appointments
      (after (appointments_router.send_appointment_reminder appointment_id) w)
    = appointments w
  ∧ time_slots
      (after (appointments_router.send_appointment_reminder appointment_id) w)
    = time_slots w
  ∧ mailer
      (after (appointments_router.send_appointment_reminder appointment_id) w)
    = mailer w.
Proof.
  open_world w.
  unfold appointments_router.get_appointment,
    appointments_router.send_appointment_reminder.
  run. destruct fs as [|[] fs]; done.
Qed.

Lemma admin_available_slots_route settings target_date w :
  appointments_router.get_available_slots settings target_date w
  = (match result (db_manager.get_time_slots_by_date target_date) w with
     | [] => inr []
     | _ :: _ =>
         inl (HTTPExceptionStr 500 "Error getting available slots: "
                ValueError)
     end,
     after (db_manager.get_time_slots_by_date target_date) w).
Proof.
  unfold appointments_router.get_available_slots,
    crud_handler.get_available_slots, db_manager.get_available_slots,
    result, after, bind, ret.
  destruct (db_manager.get_time_slots_by_date target_date w) as [[|s l] w1];
    reflexivity.
Qed.

(** X24: the administrator's available-slots route never returns a slot.
    Building [AvailableSlotResponse] without its required [id] raises
    for the first slot of the date, so the route answers 500 as soon as
    the date has a slot the store returns, and 200 with the empty list
    otherwise. *)
Theorem admin_available_slots_route_lists_nothing settings target_date w :
  (∀ slots,
     result (appointments_router.get_available_slots settings target_date) w
     = inr slots → slots = [])
  ∧ (healthy w →
     (∃ key s, slot_at w key = Some s ∧ date (slot_data s) = target_date) →
     result (appointments_router.get_available_slots settings target_date) w
     = inl (HTTPExceptionStr 500 "Error getting available slots: "
              ValueError))
  ∧ (healthy w →
     (∀ key s, slot_at w key = Some s → date (slot_data s) ≠ target_date) →
     result (appointments_router.get_available_slots settings target_date) w
     = inr [])
  ∧ time_slots
      (after (appointments_router.get_available_slots settings target_date) w)
    = time_slots w.
Proof.
  unfold result at 1 2 3, after at 1.
  rewrite admin_available_slots_route. simpl.
  pose proof (elem_of_select_by_date target_date (time_slots w)) as Hsel.
  split; [|split; [|split]].
  - intros slots.
    destruct (result (db_manager.get_time_slots_by_date target_date) w);
      congruence.
  - intros Hw (key & s & Hs & Hd). rewrite slots_by_date_healthy by done.
    destruct (select_by_date target_date (time_slots w)) as [|s' l] eqn:E;
      [|done].
    assert (s ∈ @nil TimeSlot) as []%elem_of_nil. apply Hsel. eauto.
  - intros Hw Hnone. rewrite slots_by_date_healthy by done.
    destruct (select_by_date target_date (time_slots w)) as [|s' l] eqn:E;
      [done|].
    destruct (Hsel s') as [[Hd [key Hkey]] _]; [apply list_elem_of_here|].
    by destruct (Hnone key s' Hkey).
  - unfold after.
    destruct (db_manager.get_time_slots_by_date target_date w) as [l w1] eqn:E.
    by apply get_time_slots_by_date_spec in E as (? & _).
Qed.

Lemma admin_available_slots_witness :
  result (appointments_router.get_available_slots default_settings
            "2025-01-06") (one_slot 5 2 [])
  = inl (HTTPExceptionStr 500 "Error getting available slots: " ValueError).
Proof.
  destruct (admin_available_slots_route_lists_nothing default_settings
              "2025-01-06" (one_slot 5 2 [])) as (_ & Hraise & _).
  apply Hraise; [reflexivity|].
  exists "s1"%string, (slot_row "s1" 5 2). split; reflexivity.
Defined.

Lemma public_listing_entries settings target_date w r :
  r ∈ result (orders_router.get_available_slots settings target_date) w
  ↔ ∃ s : TimeSlot,
      s ∈ result (db_manager.get_time_slots_by_date target_date) w
      ∧ bookings s < get_default (max_capacity s)
                       (MAX_APPOINTMENTS_PER_SLOT settings)
      ∧ r = mkAvailableSlotResponse (slot_id s) (date s)
              (start_time s) (end_time s)
              (get_default (max_capacity s)
                 (MAX_APPOINTMENTS_PER_SLOT settings) - bookings s)
              true.
Proof.
  unfold orders_router.get_available_slots, db_manager.get_available_slots,
    result, bind, ret.
  destruct (db_manager.get_time_slots_by_date target_date w) as [l w1].
  simpl. rewrite list_elem_of_fmap. split.
  - intros (info & -> & Hin). apply list_elem_of_filter in Hin as [Hav Hin].
    apply list_elem_of_fmap in Hin as (s & -> & Hs). simpl in *.
    apply bool_decide_eq_true in Hav. unfold bookings.
    exists s. split; [done|]. split; [lia|].
    by rewrite bool_decide_eq_true_2 by done.
  - intros (s & Hs & Hroom & ->). unfold bookings in *.
    exists (db_manager.slot_info settings s). simpl.
    rewrite bool_decide_eq_true_2 by lia. split; [done|].
    apply list_elem_of_filter. simpl.
    split; [by rewrite bool_decide_eq_true_2 by lia|].
    apply list_elem_of_fmap. eauto.
Qed.

(** X25: the public available-slots listing of the orders routes shows
    only slots with a place left: every entry is a stored slot of the
    date, with its own [id], [available_spots = max_capacity -
    current_bookings > 0] (capacity [MAX_APPOINTMENTS_PER_SLOT] and
    counter 0 when the row has none) and [is_available] true; and on a
    store that answers every stored slot of the date with a place left
    is listed. *)
Theorem public_listing_shows_only_free_slots settings target_date w :
  (∀ r,
     r ∈ result (orders_router.get_available_slots settings target_date) w →
     response_is_available r = true
     ∧ 0 < response_available_spots r
     ∧ response_date r = target_date
     ∧ ∃ key (s : TimeSlot),
         slot_at w key = Some s
         ∧ response_id r = slot_id s
         ∧ response_start_time r = start_time s
         ∧ response_end_time r = end_time s
         ∧ response_available_spots r
           = get_default (max_capacity s)
               (MAX_APPOINTMENTS_PER_SLOT settings) - bookings s)
  ∧ (healthy w →
     ∀ key (s : TimeSlot),
       slot_at w key = Some s →
       date s = target_date →
       bookings s
       < get_default (max_capacity s) (MAX_APPOINTMENTS_PER_SLOT settings) →
       ∃ r,
         r ∈ result (orders_router.get_available_slots settings target_date) w
         ∧ response_id r = slot_id s
         ∧ response_start_time r = start_time s
         ∧ response_end_time r = end_time s).
Proof.
  split.
  - intros r (s & Hs & Hroom & ->)%public_listing_entries. simpl.
    assert (s ∈ select_by_date target_date (time_slots w)) as Hsel.
    { destruct (db_manager.get_time_slots_by_date target_date w)
        as [l w1] eqn:E.
      unfold result in Hs. rewrite E in Hs. simpl in Hs.
      apply get_time_slots_by_date_spec in E as (_ & _ & [-> | ->] & _);
        [by apply elem_of_nil in Hs|done]. }
    apply elem_of_select_by_date in Hsel as [Hd [key Hkey]].
    split; [done|]. split; [lia|]. split; [done|]. exists key, s. done.
  - intros Hw key s Hs Hd Hroom.
    exists (mkAvailableSlotResponse (slot_id s) (date s)
              (start_time s) (end_time s)
              (get_default (max_capacity s)
                 (MAX_APPOINTMENTS_PER_SLOT settings) - bookings s)
              true).
    split; [|done]. apply public_listing_entries.
    exists s. rewrite slots_by_date_healthy by done.
    rewrite elem_of_select_by_date. eauto.
Qed.

Lemma public_listing_witness :
  ∃ r,
    r ∈ result (orders_router.get_available_slots default_settings
                  "2025-01-06") (one_slot 5 2 [])
    ∧ response_id r = "s1"%string.
Proof.
  destruct (public_listing_shows_only_free_slots default_settings
              "2025-01-06" (one_slot 5 2 [])) as [_ Hlisted].
  destruct (Hlisted eq_refl "s1"%string (slot_row "s1" 5 2))
    as (r & Hr & Hid & _);
    [reflexivity | reflexivity | unfold bookings; simpl; lia |].
  exists r. split; [exact Hr | exact Hid].
Defined.

(** * Further properties of generation over a range of dates *)

Lemma days_in_month_bounds y m : 28 ≤ days_in_month y m ≤ 31.
Proof. unfold days_in_month. repeat case_match; lia. Qed.

Lemma tomorrow_rank d d' :
  valid_date d → tomorrow d = Some d' → valid_date d' ∧ rank d < rank d'.
Proof.
  unfold valid_date, tomorrow, rank. intros (Hy & Hm & Hd).
  pose proof (days_in_month_bounds (year d) (month d)).
  pose proof (days_in_month_bounds (year d) (month d + 1)).
  pose proof (days_in_month_bounds (year d + 1) 1).
  repeat case_match; try done; intros [= <-]; simpl; lia.
Qed.

Lemma date_le_rank a b :
  valid_date a → valid_date b → date_le a b = true ↔ rank a ≤ rank b.
Proof.
  unfold valid_date, date_le, rank. intros (? & ? & ?) (? & ? & ?).
  pose proof (days_in_month_bounds (year a) (month a)).
  pose proof (days_in_month_bounds (year b) (month b)).
  rewrite !orb_true_iff, !andb_true_iff, !orb_true_iff, !andb_true_iff.
  lia.
Qed.

Lemma date_le_refl d : date_le d d = true.
Proof.
  unfold date_le. rewrite !Z.eqb_refl, Z.leb_refl. simpl.
  by rewrite !orb_true_r.
Qed.

Lemma generation_keeps_capacity_inv settings fuel date_obj duration w :
  0 ≤ MAX_APPOINTMENTS_PER_SLOT settings →
  capacity_inv w →
  capacity_inv
    (after (db_manager.generate_time_slots_for_date
              settings fuel date_obj duration) w).
Proof.
  intros Hmax Hinv. unfold after.
  destruct (db_manager.generate_time_slots_for_date _ _ _ _ w)
    as [r w'] eqn:E.
  apply generate_spec in E as (_ & _ & [(_ & _ & _ & Hsame)|(_ & Hgen)]).
  - by eapply capacity_inv_same.
  - destruct Hgen as (new & Hext & _ & Hnew & _). simpl.
    by eapply capacity_inv_extends.
Qed.

Lemma generation_ends settings fuel date_obj duration w :
  0 < duration →
  (1439 ≤ fuel)%nat →
  result (db_manager.generate_time_slots_for_date
            settings fuel date_obj duration) w ≠ None.
Proof.
  intros Hd Hfuel. unfold result, db_manager.generate_time_slots_for_date.
  unfold bind at 1.
  destruct (db_manager.get_time_slots_by_date date_obj w) as [[|s l] w1];
    [|by run].
  destruct (working_hours settings) as [[from until]|] eqn:Hhours; [|by run].
  apply working_hours_bounds in Hhours. unfold bind at 1.
  destruct (db_manager.generate_loop _ _ _ _ _ _ _ w1) as [r1 w2] eqn:E.
  assert (r1 ≠ None) as Hr1.
  { intros ->.
    pose proof (generate_loop_ends settings date_obj duration until fuel
                  from [] w1) as [Hnone _].
    unfold result in Hnone. rewrite E in Hnone. specialize (Hnone eq_refl).
    rewrite slot_starts_closed_form in Hnone by lia. done. }
  destruct r1; [by run|done].
Qed.

Lemma date_range_loop_step settings days fuel duration end_date current_date
    slots w :
  date_le current_date end_date = true →
  crud_handler.date_range_loop settings (S days) fuel duration end_date
    current_date slots w
  = (let '(daily, w1) :=
       db_manager.generate_time_slots_for_date
         settings fuel (isoformat current_date) duration w in
     match daily with
     | None => (None, w1)
     | Some daily_slots =>
         match tomorrow current_date with
         | Some next_date =>
             crud_handler.date_range_loop settings days fuel duration
               end_date next_date (slots ++ daily_slots) w1
         | None =>
             (Some [], after (logger ERROR "Error generating time slots") w1)
         end
     end).
Proof.
  intros Hle. simpl. rewrite Hle. unfold bind at 1.
  destruct (db_manager.generate_time_slots_for_date _ _ _ _ w)
    as [[daily|] w1]; [|done].
  by destruct (tomorrow current_date).
Qed.

Lemma date_range_loop_done settings days fuel duration end_date current_date
    slots w :
  date_le current_date end_date = false →
  crud_handler.date_range_loop settings days fuel duration end_date
    current_date slots w = (Some slots, w).
Proof. intros Hle. destruct days; simpl; by rewrite Hle. Qed.

(** X26: [generate_slots_for_date_range] on the smallest ranges.  A
    range whose start is after its end returns the empty list and does
    nothing at all.  A range of one day returns what
    [generate_time_slots_for_date] returns for that day and leaves the
    store as that call leaves it; but when the day is [date.max],
    stepping to the next day raises, and the range returns the empty
    list although the slots of the day have been created. *)
Theorem range_of_no_day_and_of_one_day settings days fuel duration d w :
  valid_date d →
  (∀ start_date,
     date_le start_date d = false →
     crud_handler.generate_slots_for_date_range
       settings days fuel start_date d duration w = (Some [], w))
  ∧ (is_Some (tomorrow d) →
     result (crud_handler.generate_slots_for_date_range
               settings (S days) fuel d d duration) w
     = result (db_manager.generate_time_slots_for_date
                 settings fuel (isoformat d) duration) w
     ∧ after (crud_handler.generate_slots_for_date_range
                settings (S days) fuel d d duration) w
       = after (db_manager.generate_time_slots_for_date
                  settings fuel (isoformat d) duration) w)
  ∧ (tomorrow d = None →
     ∀ slots,
       result (db_manager.generate_time_slots_for_date
                 settings fuel (isoformat d) duration) w = Some slots →
       result (crud_handler.generate_slots_for_date_range
                 settings (S days) fuel d d duration) w = Some []
       ∧ time_slots
           (after (crud_handler.generate_slots_for_date_range
                     settings (S days) fuel d d duration) w)
         = time_slots
             (after (db_manager.generate_time_slots_for_date
                       settings fuel (isoformat d) duration) w)).
Proof.
  intros Hvalid. unfold crud_handler.generate_slots_for_date_range.
  split; [|split].
  - intros start_date Hle. by apply date_range_loop_done.
  - intros [d' Hd']. unfold result, after.
    rewrite date_range_loop_step by apply date_le_refl.
    destruct (db_manager.generate_time_slots_for_date _ _ _ _ w)
      as [[daily|] w1]; [|done].
    rewrite Hd'. destruct (tomorrow_rank d d' Hvalid Hd') as [Hvalid' Hlt].
    rewrite date_range_loop_done; [done|].
    destruct (date_le d' d) eqn:Hle; [|done].
    apply date_le_rank in Hle; [lia|done|done].
  - intros Hmax slots. unfold result, after.
    rewrite date_range_loop_step by apply date_le_refl.
    destruct (db_manager.generate_time_slots_for_date _ _ _ _ w)
      as [[daily|] w1]; [|done].
    by rewrite Hmax.
Qed.

Lemma range_of_one_day_witness :
  result (crud_handler.generate_slots_for_date_range
            default_settings 1 9 (mkDate 2025 1 6) (mkDate 2025 1 6) 60)
    (mkWorld ∅ ∅ [] [] 0 [])
  = result (db_manager.generate_time_slots_for_date
              default_settings 9 "2025-01-06" 60) (mkWorld ∅ ∅ [] [] 0 []).
Proof.
  destruct (range_of_no_day_and_of_one_day default_settings 0 9 60
              (mkDate 2025 1 6) (mkWorld ∅ ∅ [] [] 0 []))
    as (_ & Hone & _).
  - unfold valid_date. repeat split; by vm_compute.
  - destruct Hone as [Hr _]; [by eexists|]. exact Hr.
Defined.

(** X27: whatever the store does, generation over a range of dates never
    touches the appointments and keeps
    [0 <= current_bookings <= max_capacity] on every slot (for a
    configured capacity that is not negative). *)
Theorem range_generation_keeps_the_invariant settings days fuel duration
    start_date end_date w :
  0 ≤ MAX_APPOINTMENTS_PER_SLOT settings →
  capacity_inv w →
  capacity_inv
    (after (crud_handler.generate_slots_for_date_range
              settings days fuel start_date end_date duration) w)
  ∧ appointments
      (after (crud_handler.generate_slots_for_date_range
                settings days fuel start_date end_date duration) w)
    = appointments w.
Proof.
  intros Hmax. unfold crud_handler.generate_slots_for_date_range.
  generalize (@nil TimeSlot) as slots. revert start_date w.
  induction days as [|days IH]; intros current_date w slots Hinv.
  - unfold after. simpl. by destruct (date_le current_date end_date).
  - destruct (date_le current_date end_date) eqn:Hle.
    2: { unfold after. by rewrite date_range_loop_done. }
    unfold after. rewrite date_range_loop_step by done.
    pose proof (generation_keeps_capacity_inv settings fuel
                  (isoformat current_date) duration w Hmax Hinv) as Hinv1.
    unfold after in Hinv1.
    destruct (db_manager.generate_time_slots_for_date _ _ _ _ w)
      as [daily w1] eqn:E.
    apply generate_spec in E as (Happ1 & _). simpl in Hinv1.
    destruct daily as [daily|]; [|done].
    destruct (tomorrow current_date) as [next|]; [|done].
    destruct (IH next w1 (slots ++ daily) Hinv1) as [Hinv2 Happ2].
    unfold after in *. split; [done|]. congruence.
Qed.

Lemma range_generation_witness :
  capacity_inv
    (after (crud_handler.generate_slots_for_date_range
              default_settings 3 9 (mkDate 2025 1 6) (mkDate 2025 1 7) 60)
       (one_slot 5 2 [])).
Proof.
  destruct (range_generation_keeps_the_invariant default_settings 3 9 60
              (mkDate 2025 1 6) (mkDate 2025 1 7) (one_slot 5 2 []))
    as [Hinv _].
  - simpl. lia.
  - apply capacity_inv_one_slot. lia.
  - exact Hinv.
Defined.

(** X28: generation over a range of valid dates always returns when the
    step is positive, whatever the store does: 1439 rounds a day and one
    round for each day of the range (counted generously, 31 to a month)
    are enough. *)
Theorem range_generation_ends settings days fuel duration start_date
    end_date w :
  valid_date start_date →
  valid_date end_date →
  0 < duration →
  (1439 ≤ fuel)%nat →
  (Z.to_nat (rank end_date - rank start_date + 1) ≤ days)%nat →
  result (crud_handler.generate_slots_for_date_range
            settings days fuel start_date end_date duration) w ≠ None.
Proof.
  intros Hstart Hend Hd Hfuel. unfold crud_handler.generate_slots_for_date_range.
  generalize (@nil TimeSlot) as slots. revert start_date w Hstart.
  induction days as [|days IH]; intros current_date w Hcur slots Hdays;
    destruct (date_le current_date end_date) eqn:Hle;
    try (unfold result; by rewrite date_range_loop_done).
  - apply date_le_rank in Hle; [lia|done|done].
  - apply date_le_rank in Hle; [|done|done].
    unfold result. rewrite date_range_loop_step
      by (by apply date_le_rank).
    pose proof (generation_ends settings fuel (isoformat current_date)
                  duration w Hd Hfuel) as Hday.
    unfold result in Hday.
    destruct (db_manager.generate_time_slots_for_date _ _ _ _ w)
      as [[daily|] w1]; [|done].
    destruct (tomorrow current_date) as [next|] eqn:Hnext; [|done].
    destruct (tomorrow_rank _ _ Hcur Hnext) as [Hvalid Hlt].
    apply IH; [done|lia].
Qed.

Lemma range_generation_ends_witness :
  result (crud_handler.generate_slots_for_date_range
            default_settings 40 1439 (mkDate 2025 1 30) (mkDate 2025 2 2) 30)
    (one_slot 5 2 [true; false; true]) ≠ None.
Proof.
  apply (range_generation_ends default_settings 40 1439 30
           (mkDate 2025 1 30) (mkDate 2025 2 2)).
  - unfold valid_date. repeat split; by vm_compute.
  - unfold valid_date. repeat split; by vm_compute.
  - lia.
  - lia.
  - vm_compute. lia.
Defined.
